(** * A verified reading of [homework.py]: the fitness-tracker calculator.

    The program turns sensor packages (a workout code and a list of
    numbers) into a one-line report.  Everything it does is arithmetic on
    Python numbers, so the development has two layers:

    - [Py]: the fragment of Python's numeric semantics the program
      relies on: [int] as [Z], [float] as IEEE binary64 (the kernel's
      primitive floats), the mixed-mode operators with the exceptions
      they raise, and the [.3f] format specification;
    - the embedding of the classes and functions of [homework.py] on top
      of it, followed by the theorems. *)

From Stdlib Require Import ZArith Floats String Ascii List Bool Lia DecimalString.
From Stdlib Require Uint63.
From stdpp Require Import base option gmap strings.

Local Open Scope Z_scope.
#[local] Set Warnings "-inexact-float".

(** ** Python numbers and exceptions *)

Module Py.

(** The exceptions the program can raise.  Only [ValueError] carries the
    text chosen by the program; the texts of the interpreter's own errors
    vary between versions and are left out. *)
Inductive exn : Type :=
| ZeroDivisionError
| OverflowError
| NotImplementedError
| TypeError
| ValueError (msg : string).

(** The outcome of evaluating an expression: a value or a raised
    exception. *)
Inductive result (A : Type) : Type :=
| Ok (a : A)
| Raise (e : exn).
Arguments Ok {A} a.
Arguments Raise {A} e.

#[global] Instance result_ret : MRet result := @Ok.

#[global] Instance result_bind : MBind result := fun A B k r =>
  match r with
  | Ok a => k a
  | Raise e => Raise e
  end.

#[global] Instance result_fmap : FMap result := fun A B f r =>
  match r with
  | Ok a => Ok (f a)
  | Raise e => Raise e
  end.

(** A number is an [int] (unbounded) or a [float] (binary64). *)
Inductive num : Type :=
| VInt (z : Z)
| VFloat (f : float).

(** *** Conversions *)

(** [float(z)]: the nearest double, ties to even; integers that round to
    [2^1024] or beyond do not convert. *)
Definition float_of_int (z : Z) : result float :=
  match binary_normalize prec emax z 0 false with
  | S754_infinity _ => Raise OverflowError
  | sf => Ok (SF2Prim sf)
  end.

Definition to_float (x : num) : result float :=
  match x with
  | VInt z => float_of_int z
  | VFloat f => Ok f
  end.

(** The correctly rounded quotient of two positive integers.  The
    dividend is scaled until the integer quotient has more bits than a
    double keeps; the remainder is folded into a sticky bit below them. *)
Definition round_quotient (sign : bool) (a b : Z) : spec_float :=
  let k := Z.max 0 (Z.log2 b - Z.log2 a + 56) in
  let a' := Z.shiftl a k in
  let q := a' / b in
  let sticky := if (a' mod b =? 0) then 0 else 1 in
  let m := 2 * q + sticky in
  binary_normalize prec emax (if sign then - m else m) (- k - 1) sign.

(** [a / b] on two ints (true division). *)
Definition int_true_divide (a b : Z) : result float :=
  if b =? 0 then Raise ZeroDivisionError
  else
    let sign := xorb (a <? 0) (b <? 0) in
    if a =? 0 then Ok (if sign then PrimFloat.neg_zero else PrimFloat.zero)
    else
      match round_quotient sign (Z.abs a) (Z.abs b) with
      | S754_infinity _ => Raise OverflowError
      | sf => Ok (SF2Prim sf)
      end.

(** *** The C library functions the interpreter calls *)

(** [fmod(x, y)]: the remainder of the truncated quotient, computed
    exactly; it has the sign of [x]. *)
Definition fmod (x y : float) : float :=
  match Prim2SF x, Prim2SF y with
  | S754_nan, _ | _, S754_nan => nan
  | S754_infinity _, _ => nan
  | _, S754_zero _ => nan
  | S754_zero _, _ => x
  | S754_finite _ _ _, S754_infinity _ => x
  | S754_finite sx mx ex, S754_finite _ my ey =>
      let e := Z.min ex ey in
      let r := (Zpos mx * 2 ^ (ex - e)) mod (Zpos my * 2 ^ (ey - e)) in
      SF2Prim (binary_normalize prec emax (if sx then - r else r) e sx)
  end.

(** [floor(x)]: the largest integral double not above [x]. *)
Definition floor (x : float) : float :=
  match Prim2SF x with
  | S754_finite s m e =>
      if 0 <=? e then x
      else
        let q := Z.shiftr (if s then Zneg m else Zpos m) (- e) in
        SF2Prim (binary_normalize prec emax q 0 s)
  | _ => x
  end.

(** [copysign(x, y)]: the magnitude of [x] with the sign of [y]. *)
Definition copysign (x y : float) : float :=
  if get_sign y then (- abs x)%float else abs x.

(** A double used as a C condition: true unless it compares equal to
    zero (so true for a NaN). *)
Definition truthy (x : float) : bool := negb (x =? 0)%float.

(** *** Operators *)

(** [+], [-] and [*]: exact on two ints, IEEE on doubles after
    converting an int operand. *)
Definition arith (fz : Z -> Z -> Z) (ff : float -> float -> float)
    (x y : num) : result num :=
  match x, y with
  | VInt a, VInt b => Ok (VInt (fz a b))
  | _, _ => a ← to_float x; b ← to_float y; Ok (VFloat (ff a b))
  end.

Definition add : num -> num -> result num := arith Z.add PrimFloat.add.
Definition sub : num -> num -> result num := arith Z.sub PrimFloat.sub.
Definition mul : num -> num -> result num := arith Z.mul PrimFloat.mul.

(** [x / y] *)
Definition truediv (x y : num) : result num :=
  match x, y with
  | VInt a, VInt b => VFloat <$> int_true_divide a b
  | _, _ =>
      a ← to_float x; b ← to_float y;
      if (b =? 0)%float then Raise ZeroDivisionError
      else Ok (VFloat (a / b)%float)
  end.

(** The quotient half of the interpreter's [_float_div_mod]. *)
Definition float_floor_div (vx wx : float) : float :=
  let md := fmod vx wx in
  let div := ((vx - md) / wx)%float in
  let div :=
    if truthy md && negb (Bool.eqb (wx <? 0)%float (md <? 0)%float)
    then (div - 1)%float else div in
  if truthy div then
    let fl := floor div in
    if (0.5 <? div - fl)%float then (fl + 1)%float else fl
  else copysign 0%float (vx / wx)%float.

(** [x // y] *)
Definition floordiv (x y : num) : result num :=
  match x, y with
  | VInt a, VInt b =>
      if b =? 0 then Raise ZeroDivisionError else Ok (VInt (a / b))
  | _, _ =>
      a ← to_float x; b ← to_float y;
      if (b =? 0)%float then Raise ZeroDivisionError
      else Ok (VFloat (float_floor_div a b))
  end.

(** [DOUBLE_IS_ODD_INTEGER] of the interpreter. *)
Definition is_odd_integer (x : float) : bool := (fmod (abs x) 2 =? 1)%float.

(** The interpreter's [float_pow] for an exponent [iw] that is an
    integral double (the only ones an [int] exponent converts to; a
    fractional exponent under a negative base would leave the reals).

    [libm_pow] is the C library's [pow]: its value and whether it set
    [errno] to [ERANGE].  It is reached only with a finite base above
    zero other than one and a finite exponent other than zero, where ISO C
    admits no error but a range error; its rounding is the library's
    own, so it stays a parameter. *)
Definition float_pow (libm_pow : float -> float -> float * bool)
    (iv iw : float) : result float :=
  if (iw =? 0)%float then Ok 1%float
  else if is_nan iv then Ok iv
  else if is_nan iw then Ok (if (iv =? 1)%float then 1%float else iw)
  else if is_infinity iw then
    let iv := abs iv in
    if (iv =? 1)%float then Ok 1%float
    else if Bool.eqb (0 <? iw)%float (1 <? iv)%float then Ok (abs iw)
    else Ok 0%float
  else if is_infinity iv then
    let iw_is_odd := is_odd_integer iw in
    if (0 <? iw)%float then Ok (if iw_is_odd then iv else abs iv)
    else Ok (if iw_is_odd then copysign 0%float iv else 0%float)
  else if (iv =? 0)%float then
    if (iw <? 0)%float then Raise ZeroDivisionError
    else Ok (if is_odd_integer iw then iv else 0%float)
  else
    let negate_result := (iv <? 0)%float && is_odd_integer iw in
    let iv := if (iv <? 0)%float then (- iv)%float else iv in
    if (iv =? 1)%float then Ok (if negate_result then (-1)%float else 1%float)
    else
      let (ix, erange) := libm_pow iv iw in
      let erange :=
        if erange then negb (ix =? 0)%float else is_infinity ix in
      if erange then Raise OverflowError
      else Ok (if negate_result then (- ix)%float else ix).

(** [x ** n] for an int exponent [n]. *)
Definition pow (libm_pow : float -> float -> float * bool)
    (x : num) (n : Z) : result num :=
  match x with
  | VInt b =>
      if 0 <=? n then Ok (VInt (b ^ n))
      else
        iv ← float_of_int b; iw ← float_of_int n;
        VFloat <$> float_pow libm_pow iv iw
  | VFloat iv =>
      iw ← float_of_int n; VFloat <$> float_pow libm_pow iv iw
  end.

(** *** The format specification [.3f] *)

Definition digit (d : Z) : ascii := ascii_of_N (48 + Z.to_N d).

Definition decimal (n : Z) : string :=
  NilZero.string_of_uint (N.to_uint (Z.to_N n)).

(** [n / d] for [d > 0], to the nearest integer, ties to the even one. *)
Definition round_half_even (n d : Z) : Z :=
  let q := n / d in
  match 2 * (n mod d) ?= d with
  | Lt => q
  | Eq => if Z.even q then q else q + 1
  | Gt => q + 1
  end.

(** The magnitude [m * 2^e] in thousandths, correctly rounded. *)
Definition thousandths (m : positive) (e : Z) : Z :=
  if 0 <=? e then Zpos m * 2 ^ e * 1000
  else round_half_even (Zpos m * 1000) (2 ^ (- e)).

(** A count of thousandths written in fixed point. *)
Definition fixed3 (neg : bool) (t : Z) : string :=
  (if neg then "-" else "") +:+ decimal (t / 1000) +:+ "."
  +:+ String (digit (t / 100 mod 10))
        (String (digit (t / 10 mod 10)) (String (digit (t mod 10)) "")).

Definition format_float_3f (x : float) : string :=
  match Prim2SF x with
  | S754_nan => "nan"
  | S754_infinity neg => if neg then "-inf" else "inf"
  | S754_zero neg => fixed3 neg 0
  | S754_finite neg m e => fixed3 neg (thousandths m e)
  end.

(** [format(x, '.3f')]: an int is converted to a double first. *)
Definition format_3f (x : num) : result string :=
  format_float_3f <$> to_float x.

End Py.

Import Py.

(** ** Python expressions

    An expression evaluates to a number or raises.  A binary operator
    evaluates its left operand, then its right operand, then applies
    itself, so the first exception in that order is the one raised. *)

Definition atom (x : num) : result num := Ok x.
Coercion atom : num >-> result.
Coercion VInt : Z >-> num.

Definition binop (op : num -> num -> result num)
    (x y : result num) : result num :=
  a ← x; b ← y; op a b.

Declare Scope py_scope.
Delimit Scope py_scope with py.
Notation "x + y" := (binop Py.add x y) : py_scope.
Notation "x - y" := (binop Py.sub x y) : py_scope.
Notation "x * y" := (binop Py.mul x y) : py_scope.
Notation "x / y" := (binop Py.truediv x y) : py_scope.
Notation "x // y" := (binop Py.floordiv x y)
  (at level 40, left associativity) : py_scope.

(** ** [homework.py] *)

(** *** [class InfoMessage] *)

Record InfoMessage : Type := {
  training_type : string;
  duration : num;
  distance : num;
  speed : num;
  calories : num
}.

(** [InfoMessage.get_message]: the replacement fields are formatted from
    left to right. *)
Definition get_message (self : InfoMessage) : result string :=
  duration ← format_3f (duration self);
  distance ← format_3f (distance self);
  speed ← format_3f (speed self);
  calories ← format_3f (calories self);
  Ok ("Тип тренировки: " +:+ training_type self +:+ "; "
      +:+ "Длительность: " +:+ duration +:+ " ч.; "
      +:+ "Дистанция: " +:+ distance +:+ " км; "
      +:+ "Ср. скорость: " +:+ speed +:+ " км/ч; "
      +:+ "Потрачено ккал: " +:+ calories +:+ ".").

(** *** [class Training] and its subclasses

    An object of class [Training] or of one of its three subclasses,
    with the attributes its [__init__] sets. *)
Inductive Training : Type :=
| BaseTraining (action duration weight : num)
| Running (action duration weight : num)
| SportsWalking (action duration weight height : num)
| Swimming (action duration weight length_pool count_pool : num).

Definition action (self : Training) : num :=
  match self with
  | BaseTraining a _ _ | Running a _ _
  | SportsWalking a _ _ _ | Swimming a _ _ _ _ => a
  end.

Definition duration_h (self : Training) : num :=
  match self with
  | BaseTraining _ d _ | Running _ d _
  | SportsWalking _ d _ _ | Swimming _ d _ _ _ => d
  end.

Definition weight_kg (self : Training) : num :=
  match self with
  | BaseTraining _ _ w | Running _ _ w
  | SportsWalking _ _ w _ | Swimming _ _ w _ _ => w
  end.

(** [type(self).__name__] *)
Definition type_name (self : Training) : string :=
  match self with
  | BaseTraining _ _ _ => "Training"
  | Running _ _ _ => "Running"
  | SportsWalking _ _ _ _ => "SportsWalking"
  | Swimming _ _ _ _ _ => "Swimming"
  end.

(** Class attributes.  [Swimming] overrides [LEN_STEP]; the other
    classes inherit it from [Training]. *)
Definition LEN_STEP (self : Training) : num :=
  match self with
  | Swimming _ _ _ _ _ => VFloat 1.38
  | _ => VFloat 0.65
  end.
Definition M_IN_KM : num := 1000.
Definition MIN_IN_HR : num := 60.

Definition SPEED_MAIN_CALORIE_COEFFICIENT : num := 18.
Definition SPEED_MEAN_CALORIE_DEDUCTED : num := 20.

Definition LESS_IMPACT_WEIGHT_CALORIE : num := VFloat 0.035.
Definition MAIN_INFLUENCE_WEIGHT_CALORIE : num := VFloat 0.029.
Definition EXPONENT : Z := 2.

Definition ACTUAL_EFFECT_SWIM_WEIGHT : num := 2.
Definition APPROACH_MAX_SPEED : num := VFloat 1.1.

Section Homework.

(** The C library's [pow] (see [Py.float_pow]). *)
Variable libm_pow : float -> float -> float * bool.

Notation "x ** n" := (a ← x; Py.pow libm_pow a n)
  (at level 30, right associativity) : py_scope.

Local Open Scope py_scope.

(** [Training.get_distance] *)
Definition get_distance (self : Training) : result num :=
  action self * LEN_STEP self / M_IN_KM.

(** [Training.get_mean_speed] *)
Definition Training_get_mean_speed (self : Training) : result num :=
  get_distance self / duration_h self.

(** [Swimming.get_mean_speed] *)
Definition Swimming_get_mean_speed
    (self : Training) (length_pool_m count_pool : num) : result num :=
  length_pool_m * count_pool / M_IN_KM / duration_h self.

(** [self.get_mean_speed()], resolved on the class of [self]. *)
Definition get_mean_speed (self : Training) : result num :=
  match self with
  | Swimming _ _ _ length_pool_m count_pool =>
      Swimming_get_mean_speed self length_pool_m count_pool
  | _ => Training_get_mean_speed self
  end.

(** [Training.get_spent_calories] *)
Definition Training_get_spent_calories : result num :=
  Raise NotImplementedError.

(** [Running.get_spent_calories] *)
Definition Running_get_spent_calories (self : Training) : result num :=
  (SPEED_MAIN_CALORIE_COEFFICIENT * get_mean_speed self
   - SPEED_MEAN_CALORIE_DEDUCTED)
  * weight_kg self / M_IN_KM * duration_h self * MIN_IN_HR.

(** [SportsWalking.get_spent_calories] *)
Definition SportsWalking_get_spent_calories
    (self : Training) (height_cm : num) : result num :=
  (LESS_IMPACT_WEIGHT_CALORIE * weight_kg self
   + (get_mean_speed self ** EXPONENT // height_cm)
     * MAIN_INFLUENCE_WEIGHT_CALORIE * weight_kg self)
  * duration_h self * MIN_IN_HR.

(** [Swimming.get_spent_calories] *)
Definition Swimming_get_spent_calories (self : Training) : result num :=
  (get_mean_speed self + APPROACH_MAX_SPEED)
  * ACTUAL_EFFECT_SWIM_WEIGHT * weight_kg self.

(** [self.get_spent_calories()], resolved on the class of [self]. *)
Definition get_spent_calories (self : Training) : result num :=
  match self with
  | BaseTraining _ _ _ => Training_get_spent_calories
  | Running _ _ _ => Running_get_spent_calories self
  | SportsWalking _ _ _ height_cm =>
      SportsWalking_get_spent_calories self height_cm
  | Swimming _ _ _ _ _ => Swimming_get_spent_calories self
  end.

(** [Training.show_training_info]: the arguments of the [InfoMessage]
    are evaluated in order. *)
Definition show_training_info (self : Training) : result InfoMessage :=
  distance ← get_distance self;
  speed ← get_mean_speed self;
  calories ← get_spent_calories self;
  Ok {| training_type := type_name self;
        duration := duration_h self;
        distance := distance;
        speed := speed;
        calories := calories |}.

(** [main]: the line it prints. *)
Definition main (training : Training) : result string :=
  info ← show_training_info training; get_message info.

(** *** The formulas in the words of the specification

    Each is the expression the specification gives, over the inputs it
    names, with its literals read as Python reads them. *)

Definition spec_distance (a : num) (stepLength : float) : result num :=
  a * VFloat stepLength / 1000.

Definition spec_mean_speed (a d : num) : result num :=
  (a * VFloat 0.65 / 1000) / d.

Definition spec_running_calories (a d w : num) : result num :=
  let meanSpeed := spec_mean_speed a d in
  (18 * meanSpeed - 20) * w / 1000 * d * 60.



Definition spec_swimming_mean_speed (L c d : num) : result num :=
  L * c / 1000 / d.

Definition spec_swimming_calories (meanSpeed : result num) (w : num)
  : result num :=
  (meanSpeed + VFloat 1.1) * 2 * w.

End Homework.

(** Calling a class on the unpacked list [*data]: the positional
    arguments must match the parameters of its [__init__]. *)
Definition new_Running (data : list num) : result Training :=
  match data with
  | [action; duration; weight] => Ok (Running action duration weight)
  | _ => Raise TypeError
  end.

Definition new_SportsWalking (data : list num) : result Training :=
  match data with
  | [action; duration; weight; height] =>
      Ok (SportsWalking action duration weight height)
  | _ => Raise TypeError
  end.

Definition new_Swimming (data : list num) : result Training :=
  match data with
  | [action; duration; weight; length_pool; count_pool] =>
      Ok (Swimming action duration weight length_pool count_pool)
  | _ => Raise TypeError
  end.

Definition detrmining_type_training
  : gmap string (list num -> result Training) :=
  {[ "RUN" := new_Running; "WLK" := new_SportsWalking;
     "SWM" := new_Swimming ]}.

(** [read_package]: the membership test and the subscript are one
    lookup in the dictionary. *)
Definition read_package (workout_type : string) (data : list num)
  : result Training :=
  match detrmining_type_training !! workout_type with
  | None =>
      Raise (ValueError "Трекер пока не может считать данный тип тренировки")
  | Some class => class data
  end.

(** The packages of the [__main__] block. *)
Definition packages : list (string * list num) :=
  [ ("SWM", [VInt 720; VInt 1; VInt 80; VInt 25; VInt 40]);
    ("RUN", [VInt 15000; VInt 1; VInt 75]);
    ("WLK", [VInt 9000; VInt 1; VInt 75; VInt 180]) ].

(** The dispatcher followed by [show_training_info]. *)
Definition summary_of (libm_pow : float -> float -> float * bool)
    (code : string) (data : list num) : result InfoMessage :=
  read_package code data ≫= show_training_info libm_pow.

(** A C library whose [pow] squares by one correctly rounded product and
    reports no range error of its own.  It serves to run the program on
    concrete packages; the theorems hold for every library. *)
Definition product_pow (x _ : float) : float * bool := ((x * x)%float, false).

(** The [__main__] block: one line per package, or the exception that
    ends it. *)
Definition run (libm_pow : float -> float -> float * bool)
  : list (result string) :=
  map (fun '(workout_type, data) =>
         training ← read_package workout_type data; main libm_pow training)
      packages.

(** *** Shapes of the output *)

(** The exceptions arithmetic raises. *)
Definition arithmetic_error (e : exn) : bool :=
  match e with
  | ZeroDivisionError | OverflowError => true
  | _ => false
  end.

(** A computation that returns or raises an arithmetic error. *)
Definition arithmetic {A : Type} (r : result A) : bool :=
  match r with
  | Ok _ => true
  | Raise e => arithmetic_error e
  end.

(** An object of one of the three subclasses. *)
Definition is_variant (self : Training) : bool :=
  match self with
  | BaseTraining _ _ _ => false
  | _ => true
  end.

(** A number that is, or converts to, a finite double. *)
Definition finite_num (x : num) : bool :=
  match to_float x with
  | Ok f => is_finite f
  | Raise _ => false
  end.

Definition is_digit (c : ascii) : bool :=
  ((48 <=? N_of_ascii c) && (N_of_ascii c <=? 57))%N.

Fixpoint all_digits (s : string) : bool :=
  match s with
  | EmptyString => true
  | String c s' => is_digit c && all_digits s'
  end.

(** Digits (at least one, counting those [seen] already), a point, and
    exactly three digits. *)
Fixpoint unsigned_fixed3 (seen : bool) (s : string) : bool :=
  match s with
  | EmptyString => false
  | String c s' =>
      if is_digit c then unsigned_fixed3 true s'
      else if Ascii.eqb c "." then
        seen && all_digits s' && (String.length s' =? 3)%nat
      else false
  end.

(** A fixed-point numeral with exactly three decimals, signed or not. *)
Definition is_fixed3 (s : string) : bool :=
  match s with
  | String "-" s' => unsigned_fixed3 false s'
  | _ => unsigned_fixed3 false s
  end.

(** The template as the specification prints it. *)
Definition spec_format (info : InfoMessage) : result string :=
  durationHours ← format_3f (duration info);
  distanceKm ← format_3f (distance info);
  meanSpeedKmh ← format_3f (speed info);
  caloriesKcal ← format_3f (calories info);
  Ok ("Workout type: " +:+ training_type info
      +:+ "; Duration: " +:+ durationHours
      +:+ " h; Distance: " +:+ distanceKm
      +:+ " km; Mean speed: " +:+ meanSpeedKmh
      +:+ " km/h; Calories burned: " +:+ caloriesKcal +:+ ".").

(** The template of the program, over fields already formatted. *)
Definition template
    (training_type duration distance speed calories : string) : string :=
  "Тип тренировки: " +:+ training_type
  +:+ "; Длительность: " +:+ duration
  +:+ " ч.; Дистанция: " +:+ distance
  +:+ " км; Ср. скорость: " +:+ speed
  +:+ " км/ч; Потрачено ккал: " +:+ calories +:+ ".".

(** The text of the error for an unknown workout code. *)
Definition unknown_workout : string :=
  "Трекер пока не может считать данный тип тренировки".

(** The summary of the package [("RUN", [15000, 1, 75])]. *)
Definition running_info : InfoMessage :=
  {| training_type := "Running";
     duration := 1;
     distance := VFloat 9.75;
     speed := VFloat 9.75;
     calories := VFloat 699.75 |}.

(** *** The loop of the [__main__] block and its inputs *)

(** The body of the loop: the line printed for one package. *)
Definition package_line (libm_pow : float -> float -> float * bool)
    (workout_type : string) (data : list num) : result string :=
  training ← read_package workout_type data; main libm_pow training.

(** The number of positional arguments the class behind a code takes. *)
Definition arity_of (workout_type : string) : option nat :=
  if String.eqb workout_type "RUN" then Some 3%nat
  else if String.eqb workout_type "WLK" then Some 4%nat
  else if String.eqb workout_type "SWM" then Some 5%nat
  else None.

(** The arguments a record was built from, in the order of its
    [__init__]. *)
Definition init_args (self : Training) : list num :=
  match self with
  | BaseTraining a d w | Running a d w => [a; d; w]
  | SportsWalking a d w h => [a; d; w; h]
  | Swimming a d w L c => [a; d; w; L; c]
  end.

(** A number that compares equal to zero. *)
Definition zero_num (x : num) : bool :=
  match x with
  | VInt z => z =? 0
  | VFloat f => (f =? 0)%float
  end.

(** A number that converts to a double. *)
Definition converts (x : num) : bool :=
  match to_float x with
  | Ok _ => true
  | Raise _ => false
  end.

(** A number that is zero or above (an int, or a double that is not a
    NaN). *)
Definition nonneg_num (x : num) : bool :=
  match x with
  | VInt z => 0 <=? z
  | VFloat f => (0 <=? f)%float
  end.

(** A double above zero and below infinity. *)
Definition positive_finite (f : float) : bool :=
  ((0 <? f) && (f <? infinity))%float.

(** *** Signs of doubles, on their specification *)

(** A zero of either sign, or a finite or infinite double of sign [s]
    (so not a NaN). *)
Definition sf_sign (s : bool) (x : spec_float) : bool :=
  match x with
  | S754_nan => false
  | S754_zero _ => true
  | S754_infinity s' | S754_finite s' _ _ => Bool.eqb s' s
  end.

(** A finite double above zero. *)
Definition sf_posfin (x : spec_float) : bool :=
  match x with
  | S754_finite s _ _ => negb s
  | _ => false
  end.

(** +0, a positive double or plus infinity. *)
Definition sf_plus (x : spec_float) : bool :=
  match x with
  | S754_nan => false
  | S754_zero s | S754_infinity s | S754_finite s _ _ => negb s
  end.

(** * Properties *)

(** ** The numeric layer on known values *)

Example float_of_int_rounds :
  float_of_int (2 ^ 53 + 1) = Ok 9007199254740992%float
  /\ float_of_int (- (2 ^ 53 + 3)) = Ok (-9007199254740996)%float
  /\ float_of_int (2 ^ 1024 - 2 ^ 970) = Raise OverflowError
  /\ float_of_int (10 ^ 400) = Raise OverflowError.
Proof. repeat split; vm_compute; reflexivity. Qed.

Example int_true_divide_rounds :
  int_true_divide 1 3 = Ok (1 / 3)%float
  /\ int_true_divide 0 (-5) = Ok (-0)%float
  /\ int_true_divide (-7) 3 = Ok (-2.3333333333333335)%float
  /\ int_true_divide 1 (2 ^ 1075) = Ok 0%float
  /\ int_true_divide 3 (2 ^ 1075) = Ok 1e-323%float
  /\ int_true_divide (10 ^ 400) 1 = Raise OverflowError
  /\ int_true_divide 1 0 = Raise ZeroDivisionError.
Proof. repeat split; vm_compute; reflexivity. Qed.

Example floordiv_values :
  floordiv (VFloat 7.5) 2 = Ok (VFloat 3)
  /\ floordiv (VFloat (-7.5)) 2 = Ok (VFloat (-4))
  /\ floordiv (VFloat 1) (VFloat 0.1) = Ok (VFloat 9)
  /\ floordiv (VFloat 34.2225) 180 = Ok (VFloat 0)
  /\ floordiv (VFloat (-0.5)) 180 = Ok (VFloat (-1))
  /\ floordiv (VFloat 3) (VFloat (-0)) = Raise ZeroDivisionError
  /\ floordiv (-7) 2 = Ok (VInt (-4)).
Proof. repeat split; vm_compute; reflexivity. Qed.

Example pow_values :
  pow product_pow (VFloat 5.85) 2 = Ok (VFloat 34.222499999999997)
  /\ pow product_pow (VFloat (-3)) 2 = Ok (VFloat 9)
  /\ pow product_pow (VFloat 1e200) 2 = Raise OverflowError
  /\ pow product_pow (VFloat neg_infinity) 2 = Ok (VFloat infinity)
  /\ pow product_pow (-3) 2 = Ok (VInt 9).
Proof. repeat split; vm_compute; reflexivity. Qed.

Example format_3f_values :
  format_3f (VFloat 0.9936) = Ok "0.994"
  /\ format_3f (VFloat 0.0625) = Ok "0.062"
  /\ format_3f (VFloat 0.1875) = Ok "0.188"
  /\ format_3f (VFloat (-0.0001)) = Ok "-0.000"
  /\ format_3f (VFloat 1e23) = Ok "99999999999999991611392.000"
  /\ format_3f (-15000) = Ok "-15000.000"
  /\ format_3f (VFloat nan) = Ok "nan"
  /\ format_3f (VFloat neg_infinity) = Ok "-inf"
  /\ format_3f (10 ^ 400) = Raise OverflowError.
Proof. repeat split; vm_compute; reflexivity. Qed.

(** The three lines the program prints. *)
Example run_prints :
  run product_pow =
  [ Ok "Тип тренировки: Swimming; Длительность: 1.000 ч.; Дистанция: 0.994 км; Ср. скорость: 1.000 км/ч; Потрачено ккал: 336.000.";
    Ok "Тип тренировки: Running; Длительность: 1.000 ч.; Дистанция: 9.750 км; Ср. скорость: 9.750 км/ч; Потрачено ккал: 699.750.";
    Ok "Тип тренировки: SportsWalking; Длительность: 1.000 ч.; Дистанция: 5.850 км; Ср. скорость: 5.850 км/ч; Потрачено ккал: 157.500." ].
Proof. vm_compute. reflexivity. Qed.

(** ** Which exceptions arithmetic raises *)

Lemma arithmetic_bind {A B : Type} (r : result A) (k : A -> result B) :
  arithmetic r = true -> (forall a, arithmetic (k a) = true) ->
  arithmetic (r ≫= k) = true.
Proof.
  intros Hr Hk. destruct r as [a|e]; simpl; [apply Hk | exact Hr].
Qed.

Lemma arithmetic_fmap {A B : Type} (f : A -> B) (r : result A) :
  arithmetic r = true -> arithmetic (f <$> r) = true.
Proof. destruct r; simpl; auto. Qed.

Lemma arithmetic_float_of_int (z : Z) : arithmetic (float_of_int z) = true.
Proof. unfold float_of_int. destruct (binary_normalize _ _ _ _ _); reflexivity. Qed.

Lemma arithmetic_to_float (x : num) : arithmetic (to_float x) = true.
Proof. destruct x; simpl; [apply arithmetic_float_of_int | reflexivity]. Qed.

Lemma arithmetic_int_true_divide (a b : Z) :
  arithmetic (int_true_divide a b) = true.
Proof.
  unfold int_true_divide.
  destruct (b =? 0); [reflexivity|].
  destruct (a =? 0); [reflexivity|].
  destruct (round_quotient _ _ _); reflexivity.
Qed.

Lemma arithmetic_arith fz ff (x y : num) : arithmetic (arith fz ff x y) = true.
Proof.
  unfold arith.
  destruct x, y; try reflexivity;
    (apply arithmetic_bind; [apply arithmetic_to_float|intros ?]);
    (apply arithmetic_bind; [apply arithmetic_to_float|intros ?]); reflexivity.
Qed.

Lemma arithmetic_truediv (x y : num) : arithmetic (truediv x y) = true.
Proof.
  unfold truediv.
  destruct x, y; try (apply arithmetic_fmap, arithmetic_int_true_divide);
    (apply arithmetic_bind; [apply arithmetic_to_float|intros ?]);
    (apply arithmetic_bind; [apply arithmetic_to_float|intros b]);
    destruct (b =? 0)%float; reflexivity.
Qed.

Lemma arithmetic_floordiv (x y : num) : arithmetic (floordiv x y) = true.
Proof.
  unfold floordiv.
  destruct x, y; try (destruct (_ =? 0); reflexivity);
    (apply arithmetic_bind; [apply arithmetic_to_float|intros ?]);
    (apply arithmetic_bind; [apply arithmetic_to_float|intros b]);
    destruct (b =? 0)%float; reflexivity.
Qed.

Lemma arithmetic_float_pow libm (iv iw : float) :
  arithmetic (float_pow libm iv iw) = true.
Proof.
  unfold float_pow.
  repeat match goal with
         | |- context [if ?b then _ else _] => destruct b
         | |- context [let (_, _) := ?p in _] => destruct p
         end; reflexivity.
Qed.

Lemma arithmetic_pow libm (x : num) (n : Z) : arithmetic (pow libm x n) = true.
Proof.
  unfold pow. destruct x.
  - destruct (0 <=? n); [reflexivity|].
    apply arithmetic_bind; [apply arithmetic_float_of_int|intros ?].
    apply arithmetic_bind; [apply arithmetic_float_of_int|intros ?].
    apply arithmetic_fmap, arithmetic_float_pow.
  - apply arithmetic_bind; [apply arithmetic_float_of_int|intros ?].
    apply arithmetic_fmap, arithmetic_float_pow.
Qed.

Lemma arithmetic_binop op (x y : result num) :
  (forall a b, arithmetic (op a b) = true) ->
  arithmetic x = true -> arithmetic y = true ->
  arithmetic (binop op x y) = true.
Proof.
  intros Hop Hx Hy. unfold binop.
  apply arithmetic_bind; [exact Hx|intros a].
  apply arithmetic_bind; [exact Hy|intros b]. apply Hop.
Qed.

Lemma arithmetic_atom (x : num) : arithmetic (atom x) = true.
Proof. reflexivity. Qed.

Create HintDb arithmetic.
#[local] Hint Resolve arithmetic_atom arithmetic_arith arithmetic_truediv
  arithmetic_floordiv arithmetic_pow arithmetic_to_float : arithmetic.
#[local] Hint Extern 2 (arithmetic (binop _ _ _) = true) =>
  apply arithmetic_binop; [intros ? ?|..] : arithmetic.
#[local] Hint Extern 2 (arithmetic (_ ≫= _) = true) =>
  apply arithmetic_bind; [|intros ?] : arithmetic.
#[local] Hint Extern 1 (arithmetic (add _ _) = true) => apply arithmetic_arith : arithmetic.
#[local] Hint Extern 1 (arithmetic (sub _ _) = true) => apply arithmetic_arith : arithmetic.
#[local] Hint Extern 1 (arithmetic (mul _ _) = true) => apply arithmetic_arith : arithmetic.

Lemma arithmetic_get_distance (self : Training) :
  arithmetic (get_distance self) = true.
Proof. unfold get_distance. auto with arithmetic. Qed.

Lemma arithmetic_get_mean_speed (self : Training) :
  arithmetic (get_mean_speed self) = true.
Proof.
  pose proof (arithmetic_get_distance self).
  destruct self; unfold get_mean_speed, Training_get_mean_speed, Swimming_get_mean_speed;
    auto 10 with arithmetic.
Qed.

Lemma arithmetic_get_spent_calories libm (self : Training) :
  is_variant self = true ->
  arithmetic (get_spent_calories libm self) = true.
Proof.
  intros Hv. pose proof (arithmetic_get_mean_speed self).
  destruct self; [discriminate Hv|..];
    unfold get_spent_calories, Running_get_spent_calories,
      SportsWalking_get_spent_calories, Swimming_get_spent_calories;
    auto 20 with arithmetic.
Qed.

Lemma arithmetic_format_3f (x : num) : arithmetic (format_3f x) = true.
Proof. apply arithmetic_fmap, arithmetic_to_float. Qed.

Lemma arithmetic_get_message (info : InfoMessage) :
  arithmetic (get_message info) = true.
Proof.
  unfold get_message.
  repeat (apply arithmetic_bind; [apply arithmetic_format_3f|intros ?]).
  reflexivity.
Qed.

Lemma arithmetic_main libm (self : Training) :
  is_variant self = true -> arithmetic (main libm self) = true.
Proof.
  intros Hv. unfold main, show_training_info.
  apply arithmetic_bind; [|apply arithmetic_get_message].
  apply arithmetic_bind; [apply arithmetic_get_distance|intros ?].
  apply arithmetic_bind; [apply arithmetic_get_mean_speed|intros ?].
  apply arithmetic_bind; [|reflexivity].
  apply arithmetic_get_spent_calories, Hv.
Qed.


(** ** Values of the operators on operands that convert *)

Lemma binop_arith_r fz ff (x : num) (fx f : float) :
  to_float x = Ok fx ->
  binop (arith fz ff) (Ok x) (Ok (VFloat f)) = Ok (VFloat (ff fx f)).
Proof.
  intros Hx. unfold binop, arith. destruct x as [z|g]; simpl in *.
  - rewrite Hx. reflexivity.
  - injection Hx as ->. reflexivity.
Qed.

Lemma binop_arith_l fz ff (y : num) (f fy : float) :
  to_float y = Ok fy ->
  binop (arith fz ff) (Ok (VFloat f)) (Ok y) = Ok (VFloat (ff f fy)).
Proof.
  intros Hy. unfold binop, arith. simpl. rewrite Hy. reflexivity.
Qed.

Lemma binop_truediv_l (y : num) (f fy : float) :
  to_float y = Ok fy -> (fy =? 0)%float = false ->
  binop truediv (Ok (VFloat f)) (Ok y) = Ok (VFloat (f / fy)%float).
Proof.
  intros Hy Hnz. unfold binop, truediv. simpl.
  rewrite Hy. simpl. rewrite Hnz. reflexivity.
Qed.

Lemma binop_floordiv_l (y : num) (f fy : float) :
  to_float y = Ok fy -> (fy =? 0)%float = false ->
  binop floordiv (Ok (VFloat f)) (Ok y)
  = Ok (VFloat (float_floor_div f fy)).
Proof.
  intros Hy Hnz. unfold binop, floordiv. simpl.
  rewrite Hy. simpl. rewrite Hnz. reflexivity.
Qed.

Lemma pow_float libm (f sq : float) (n : Z) (fn : float) :
  float_of_int n = Ok fn ->
  float_pow libm f fn = Ok sq ->
  pow libm (VFloat f) n = Ok (VFloat sq).
Proof.
  intros Hn Hsq. unfold pow. rewrite Hn. simpl. rewrite Hsq. reflexivity.
Qed.

Lemma to_float_int (z : Z) (f : float) :
  float_of_int z = Ok f -> to_float (VInt z) = Ok f.
Proof. intros H; exact H. Qed.

(** The double of an int literal, by evaluation. *)
Ltac int_literal := apply to_float_int; vm_compute; reflexivity.

Section Values.

Variable libm_pow : float -> float -> float * bool.

Local Open Scope py_scope.

Lemma get_distance_value (self : Training) (fa len : float) :
  to_float (action self) = Ok fa ->
  LEN_STEP self = VFloat len ->
  get_distance self = Ok (VFloat (fa * len / 1000)%float).
Proof.
  intros Ha Hlen. unfold get_distance, atom, mul. rewrite Hlen.
  rewrite (binop_arith_r _ _ (action self) fa) by exact Ha.
  apply binop_truediv_l; [int_literal | reflexivity].
Qed.

Lemma mean_speed_value (self : Training) (fa fd : float) :
  type_name self <> "Swimming" ->
  to_float (action self) = Ok fa ->
  to_float (duration_h self) = Ok fd -> (fd =? 0)%float = false ->
  get_mean_speed self = Ok (VFloat (fa * 0.65 / 1000 / fd)%float).
Proof.
  intros Hs Ha Hd Hnz.
  assert (get_mean_speed self = Training_get_mean_speed self) as ->
    by (destruct self; [reflexivity..|contradiction Hs; reflexivity]).
  unfold Training_get_mean_speed, atom.
  rewrite (get_distance_value self fa 0.65 Ha)
    by (destruct self; [reflexivity..|contradiction Hs; reflexivity]).
  apply binop_truediv_l; assumption.
Qed.

Lemma running_calories_value (a d w : num) (fa fd fw : float) :
  to_float a = Ok fa -> to_float d = Ok fd -> to_float w = Ok fw ->
  (fd =? 0)%float = false ->
  get_spent_calories libm_pow (Running a d w)
  = Ok (VFloat ((18 * (fa * 0.65 / 1000 / fd) - 20)
                * fw / 1000 * fd * 60)%float).
Proof.
  intros Ha Hd Hw Hnz.
  unfold get_spent_calories, Running_get_spent_calories, atom.
  rewrite (mean_speed_value _ fa fd) by (assumption || discriminate).
  unfold sub, mul.
  rewrite (binop_arith_r _ _ SPEED_MAIN_CALORIE_COEFFICIENT 18%float)
    by int_literal.
  rewrite (binop_arith_l _ _ SPEED_MEAN_CALORIE_DEDUCTED _ 20%float)
    by int_literal.
  rewrite (binop_arith_l _ _ (weight_kg _) _ fw) by exact Hw.
  rewrite (binop_truediv_l M_IN_KM _ 1000%float)
    by (int_literal || reflexivity).
  rewrite (binop_arith_l _ _ (duration_h _) _ fd) by exact Hd.
  apply binop_arith_l. int_literal.
Qed.

Lemma walking_calories_value (a d w h : num) (fa fd fw fh sq : float) :
  to_float a = Ok fa -> to_float d = Ok fd ->
  to_float w = Ok fw -> to_float h = Ok fh ->
  (fd =? 0)%float = false -> (fh =? 0)%float = false ->
  float_pow libm_pow (fa * 0.65 / 1000 / fd) 2 = Ok sq ->
  get_spent_calories libm_pow (SportsWalking a d w h)
  = Ok (VFloat ((0.035 * fw + float_floor_div sq fh * 0.029 * fw)
                * fd * 60)%float).
Proof.
  intros Ha Hd Hw Hh Hd0 Hh0 Hsq.
  unfold get_spent_calories, SportsWalking_get_spent_calories, atom.
  rewrite (mean_speed_value _ fa fd) by (assumption || discriminate).
  change (Ok (VFloat ?ms) ≫= _) with (pow libm_pow (VFloat ms) EXPONENT).
  rewrite (pow_float _ _ sq EXPONENT 2%float) by (assumption || reflexivity).
  unfold add, mul, LESS_IMPACT_WEIGHT_CALORIE.
  rewrite (binop_floordiv_l h _ fh) by assumption.
  rewrite (binop_arith_l _ _ MAIN_INFLUENCE_WEIGHT_CALORIE _ 0.029%float)
    by reflexivity.
  rewrite !(binop_arith_l _ _ (weight_kg _) _ fw) by exact Hw.
  rewrite (binop_arith_l _ _ (VFloat _) _ _) by reflexivity.
  rewrite (binop_arith_l _ _ (duration_h _) _ fd) by exact Hd.
  apply binop_arith_l. int_literal.
Qed.

Lemma swimming_mean_speed_value (a d w : num) (fL fc fd : float) :
  to_float d = Ok fd -> (fd =? 0)%float = false ->
  get_mean_speed (Swimming a d w (VFloat fL) (VFloat fc))
  = Ok (VFloat (fL * fc / 1000 / fd)%float).
Proof.
  intros Hd Hnz. unfold get_mean_speed, Swimming_get_mean_speed, atom, mul.
  rewrite (binop_arith_l _ _ (VFloat fc) _ fc) by reflexivity.
  rewrite (binop_truediv_l M_IN_KM _ 1000%float)
    by (int_literal || reflexivity).
  apply binop_truediv_l; assumption.
Qed.

Lemma swimming_calories_value (self : Training) (ms fw : float) :
  get_mean_speed self = Ok (VFloat ms) ->
  to_float (weight_kg self) = Ok fw ->
  Swimming_get_spent_calories self
  = Ok (VFloat ((ms + 1.1) * 2 * fw)%float).
Proof.
  intros Hms Hw. unfold Swimming_get_spent_calories, atom.
  rewrite Hms. unfold add, mul.
  rewrite (binop_arith_l _ _ APPROACH_MAX_SPEED _ 1.1%float) by reflexivity.
  rewrite (binop_arith_l _ _ ACTUAL_EFFECT_SWIM_WEIGHT _ 2%float)
    by int_literal.
  apply binop_arith_l, Hw.
Qed.

End Values.

(** ** The shape of a formatted number *)

Lemma is_digit_digit (d : Z) : 0 <= d < 10 -> is_digit (digit d) = true.
Proof.
  intros Hd.
  assert (d = 0 \/ d = 1 \/ d = 2 \/ d = 3 \/ d = 4 \/ d = 5 \/ d = 6
          \/ d = 7 \/ d = 8 \/ d = 9) as H by lia.
  repeat destruct H as [->|H]; try subst d; reflexivity.
Qed.

Lemma all_digits_of_uint (d : Decimal.uint) :
  all_digits (NilEmpty.string_of_uint d) = true.
Proof. induction d; simpl; auto. Qed.

Lemma decimal_digits (n : Z) :
  exists c s, decimal n = String c s /\ is_digit c = true /\ all_digits s = true.
Proof.
  unfold decimal, NilZero.string_of_uint.
  pose proof (all_digits_of_uint (N.to_uint (Z.to_N n))) as H.
  destruct (N.to_uint (Z.to_N n)); simpl in *;
    try (apply andb_prop in H as [Hc Hs]); eauto.
Qed.

Lemma unsigned_fixed3_app (s frac : string) (seen : bool) :
  all_digits s = true ->
  unsigned_fixed3 seen (s +:+ String "." frac)
  = match s with
    | EmptyString => seen
    | String _ _ => true
    end && all_digits frac && (String.length frac =? 3)%nat.
Proof.
  revert seen. induction s as [|c s IH]; intros seen Hs; simpl.
  - reflexivity.
  - simpl in Hs. apply andb_prop in Hs as [Hc Hs]. rewrite Hc.
    rewrite (IH true Hs). destruct s; reflexivity.
Qed.

Lemma is_fixed3_fixed3 (neg : bool) (t : Z) : is_fixed3 (fixed3 neg t) = true.
Proof.
  unfold fixed3.
  destruct (decimal_digits (t / 1000)) as (c & s & -> & Hc & Hs).
  assert (unsigned_fixed3 false
            (String c s +:+ "." +:+
               String (digit (t / 100 mod 10))
                 (String (digit (t / 10 mod 10)) (String (digit (t mod 10)) "")))
          = true) as H.
  { change (String c s +:+ "." +:+ ?f) with (String c s +:+ String "." f).
    rewrite unsigned_fixed3_app by (simpl; rewrite Hc; exact Hs).
    simpl. rewrite !is_digit_digit by (apply Z.mod_pos_bound; lia). reflexivity. }
  destruct neg.
  - exact H.
  - change ("" +:+ ?x) with x. unfold is_fixed3.
    destruct c as [[] [] [] [] [] [] [] []]; try exact H; discriminate Hc.
Qed.

Lemma is_fixed3_format_float (x : float) :
  is_finite x = true -> is_fixed3 (format_float_3f x) = true.
Proof.
  unfold is_finite, format_float_3f, Prim2SF. intros Hfin.
  apply negb_true_iff, orb_false_iff in Hfin as [-> Hinf].
  destruct (is_zero x); [apply is_fixed3_fixed3|].
  rewrite Hinf.
  destruct (Z.frexp x) as [r e].
  destruct (shr_fexp _ _ _ _ _) as [shr e'].
  destruct (shr_m shr); apply is_fixed3_fixed3.
Qed.

Lemma format_3f_finite (x : num) :
  finite_num x = true ->
  exists s, format_3f x = Ok s /\ is_fixed3 s = true.
Proof.
  unfold finite_num, format_3f. intros H.
  destruct (to_float x) as [f|]; [|discriminate].
  exists (format_float_3f f). split; [reflexivity|].
  apply is_fixed3_format_float, H.
Qed.


(** ** The dispatcher *)

Lemma lookup_class (code : string) class :
  detrmining_type_training !! code = Some class ->
  (code = "RUN" /\ class = new_Running)
  \/ (code = "WLK" /\ class = new_SportsWalking)
  \/ (code = "SWM" /\ class = new_Swimming).
Proof.
  unfold detrmining_type_training. intros H.
  apply lookup_insert_Some in H as [[<- <-]|[_ H]]; [auto|].
  apply lookup_insert_Some in H as [[<- <-]|[_ H]]; [auto|].
  apply lookup_singleton_Some in H as [<- <-]. auto.
Qed.

Lemma read_package_variant (code : string) (data : list num) (self : Training) :
  read_package code data = Ok self -> is_variant self = true.
Proof.
  unfold read_package.
  destruct (detrmining_type_training !! code) as [class|] eqn:E; [|discriminate].
  apply lookup_class in E as [[_ ->]|[[_ ->]|[_ ->]]];
    destruct data as [|? [|? [|? [|? [|? [|? ?]]]]]]; simpl;
    intros [= <-] || discriminate; reflexivity.
Qed.


(** A package whose length is not the arity of its class fails in the
    constructor, not in the dispatcher. *)
Lemma read_package_arity (data : list num) :
  (length data <> 3%nat -> read_package "RUN" data = Raise TypeError)
  /\ (length data <> 4%nat -> read_package "WLK" data = Raise TypeError)
  /\ (length data <> 5%nat -> read_package "SWM" data = Raise TypeError).
Proof.
  repeat split; intros Hlen;
    destruct data as [|? [|? [|? [|? [|? [|? ?]]]]]];
    reflexivity || (contradiction Hlen; reflexivity).
Qed.

(** ** The claims *)

Section Claims.

Variable libm_pow : float -> float -> float * bool.

Local Open Scope py_scope.

(** C1. [Running.get_spent_calories] evaluates the running formula of the
    specification, (18 * meanSpeed - 20) * w / 1000 * d * 60 with
    meanSpeed = (a * 0.65 / 1000) / d, on the record's action count,
    duration and weight: the two have the same outcome on every record,
    and when the three inputs convert to doubles and the duration is not
    zero that outcome is the double the formula denotes.  The package
    [("RUN", [15000, 1, 75])] gives a summary of type "Running" whose
    distance and mean speed both print as 9.750 and whose calories are
    the value of the formula. *)
Theorem running_calories_formula :
  (forall a d w : num,
      get_spent_calories libm_pow (Running a d w)
      = spec_running_calories a d w)
  /\ (forall (a d w : num) (fa fd fw : float),
        to_float a = Ok fa -> to_float d = Ok fd -> to_float w = Ok fw ->
        (fd =? 0)%float = false ->
        get_spent_calories libm_pow (Running a d w)
        = Ok (VFloat ((18 * (fa * 0.65 / 1000 / fd) - 20)
                      * fw / 1000 * fd * 60)%float))
  /\ exists info : InfoMessage,
      summary_of libm_pow "RUN" [VInt 15000; VInt 1; VInt 75] = Ok info
      /\ training_type info = "Running"
      /\ format_3f (distance info) = Ok "9.750"
      /\ format_3f (speed info) = Ok "9.750"
      /\ Ok (calories info) = spec_running_calories 15000 1 75.
Proof.
  split; [|split].
  - intros a d w. reflexivity.
  - intros a d w fa fd fw. apply running_calories_value.
  - exists running_info. split; [vm_compute; reflexivity|].
    repeat split; vm_compute; reflexivity.
Qed.


(** C3. [Swimming.get_mean_speed] overrides the inherited method: it
    evaluates pool length times lap count over 1000 over the duration,
    with the same outcome on every record; on a pool given in doubles
    and a duration that converts to a double other than zero it returns
    the double L * c / 1000 / d.  The package
    [("SWM", [720, 1, 80, 25, 40])] has a mean speed that prints as
    1.000, where the inherited method would give 0.994. *)
Theorem swimming_mean_speed_formula :
  (forall a d w L c : num,
      get_mean_speed (Swimming a d w L c) = spec_swimming_mean_speed L c d)
  /\ (forall (a d w : num) (fL fc fd : float),
        to_float d = Ok fd -> (fd =? 0)%float = false ->
        get_mean_speed (Swimming a d w (VFloat fL) (VFloat fc))
        = Ok (VFloat (fL * fc / 1000 / fd)%float))
  /\ (exists info : InfoMessage,
        summary_of libm_pow "SWM"
          [VInt 720; VInt 1; VInt 80; VInt 25; VInt 40] = Ok info
        /\ speed info = VFloat 1
        /\ format_3f (speed info) = Ok "1.000")
  /\ Training_get_mean_speed (Swimming 720 1 80 25 40) ≫= format_3f
     = Ok "0.994".
Proof.
  split; [|split; [|split]].
  - intros a d w L c. reflexivity.
  - intros a d w fL fc fd. apply swimming_mean_speed_value.
  - eexists. split; [vm_compute; reflexivity|].
    split; vm_compute; reflexivity.
  - vm_compute. reflexivity.
Qed.

(** C4. [Swimming.get_spent_calories] evaluates (mean speed + 1.1) * 2 *
    weight on the swimming mean speed: the two have the same outcome on
    every record, and when the mean speed is a double and the weight
    converts to one that outcome is the double the formula denotes.  The
    package [("SWM", [720, 1, 80, 25, 40])] has calories that print as
    336.000. *)
Theorem swimming_calories_formula :
  (forall a d w L c : num,
      get_spent_calories libm_pow (Swimming a d w L c)
      = spec_swimming_calories (get_mean_speed (Swimming a d w L c)) w)
  /\ (forall (a d w L c : num) (ms fw : float),
        get_mean_speed (Swimming a d w L c) = Ok (VFloat ms) ->
        to_float w = Ok fw ->
        get_spent_calories libm_pow (Swimming a d w L c)
        = Ok (VFloat ((ms + 1.1) * 2 * fw)%float))
  /\ exists info : InfoMessage,
      summary_of libm_pow "SWM"
        [VInt 720; VInt 1; VInt 80; VInt 25; VInt 40] = Ok info
      /\ calories info = VFloat 336
      /\ format_3f (calories info) = Ok "336.000".
Proof.
  split; [|split].
  - intros a d w L c. reflexivity.
  - intros a d w L c ms fw Hms Hw.
    apply (swimming_calories_value (Swimming a d w L c)); assumption.
  - eexists. split; [vm_compute; reflexivity|].
    split; vm_compute; reflexivity.
Qed.

(** C5. [get_distance] is the action count times the step length over
    1000, with step length 0.65 for [Running] and [SportsWalking] and
    1.38 for [Swimming]; when the action count converts to a double, it
    is that double times the step length over 1000. *)
Theorem distance_formula :
  (forall a d w : num,
      get_distance (Running a d w) = spec_distance a 0.65)
  /\ (forall a d w h : num,
        get_distance (SportsWalking a d w h) = spec_distance a 0.65)
  /\ (forall a d w L c : num,
        get_distance (Swimming a d w L c) = spec_distance a 1.38)
  /\ (forall (self : Training) (fa : float),
        to_float (action self) = Ok fa ->
        get_distance self
        = Ok (VFloat (fa * (if String.eqb (type_name self) "Swimming"
                            then 1.38 else 0.65) / 1000)%float)).
Proof.
  split; [|split; [|split]]; try (intros; reflexivity).
  intros self fa Ha. apply get_distance_value; [exact Ha|].
  destruct self; reflexivity.
Qed.

(** C6. [read_package] raises the [ValueError] with the program's message
    for every code other than "RUN", "WLK" and "SWM" (so for "XYZ"), and
    for each of the three builds the record of the matching class from
    the arguments in positional order. *)
Theorem read_package_dispatch :
  (forall (code : string) (data : list num),
      code <> "RUN" -> code <> "WLK" -> code <> "SWM" ->
      read_package code data = Raise (ValueError unknown_workout))
  /\ read_package "XYZ" [VInt 15000; VInt 1; VInt 75]
     = Raise (ValueError unknown_workout)
  /\ unknown_workout <> ""
  /\ (forall a d w : num, read_package "RUN" [a; d; w] = Ok (Running a d w))
  /\ (forall a d w h : num,
        read_package "WLK" [a; d; w; h] = Ok (SportsWalking a d w h))
  /\ (forall a d w L c : num,
        read_package "SWM" [a; d; w; L; c] = Ok (Swimming a d w L c)).
Proof.
  split; [|repeat split; try intros; try reflexivity; try discriminate].
  intros code data Hrun Hwlk Hswm.
  unfold read_package, detrmining_type_training.
  rewrite !lookup_insert_ne by congruence.
  rewrite lookup_singleton_ne by congruence. reflexivity.
Qed.

(** C7, amended.  For every summary whose four numeric fields are finite
    (an int in the range of a double, or a finite double), [get_message]
    returns the program's template, "Тип тренировки: ...; Длительность:
    ... ч.; Дистанция: ... км; Ср. скорость: ... км/ч; Потрачено ккал:
    ....", filled with the type and with the four fields under [.3f],
    each of them a fixed-point numeral with exactly three decimals. *)
Theorem get_message_template (info : InfoMessage) :
  finite_num (duration info) = true ->
  finite_num (distance info) = true ->
  finite_num (speed info) = true ->
  finite_num (calories info) = true ->
  exists duration_s distance_s speed_s calories_s : string,
    get_message info
    = Ok (template (training_type info)
            duration_s distance_s speed_s calories_s)
    /\ format_3f (duration info) = Ok duration_s
    /\ format_3f (distance info) = Ok distance_s
    /\ format_3f (speed info) = Ok speed_s
    /\ format_3f (calories info) = Ok calories_s
    /\ is_fixed3 duration_s = true /\ is_fixed3 distance_s = true
    /\ is_fixed3 speed_s = true /\ is_fixed3 calories_s = true.
Proof.
  intros Hd Hs Hv Hc.
  apply format_3f_finite in Hd as (d & Ed & Fd).
  apply format_3f_finite in Hs as (s & Es & Fs).
  apply format_3f_finite in Hv as (v & Ev & Fv).
  apply format_3f_finite in Hc as (c & Ec & Fc).
  exists d, s, v, c. unfold get_message. rewrite Ed, Es, Ev, Ec.
  repeat split; assumption.
Qed.

(** C8. [get_spent_calories] on an object of the base class raises
    [NotImplementedError], whatever its attributes; on a record that
    [read_package] returns, neither it nor [main] raises that error. *)
Theorem not_implemented_only_on_base :
  (forall a d w : num,
      get_spent_calories libm_pow (BaseTraining a d w)
      = Raise NotImplementedError)
  /\ (forall (code : string) (data : list num) (self : Training),
        read_package code data = Ok self ->
        get_spent_calories libm_pow self <> Raise NotImplementedError
        /\ main libm_pow self <> Raise NotImplementedError).
Proof.
  split; [reflexivity|].
  intros code data self Hread.
  apply read_package_variant in Hread.
  split; intros Hraise.
  - pose proof (arithmetic_get_spent_calories libm_pow self Hread) as H.
    rewrite Hraise in H. discriminate.
  - pose proof (arithmetic_main libm_pow self Hread) as H.
    rewrite Hraise in H. discriminate.
Qed.

(** C9. The mean speed of a [Swimming] record depends only on the pool
    length, the lap count and the duration: two records that agree on
    these have the same mean speed, whatever their action counts and
    weights. *)
Theorem swimming_mean_speed_ignores_action :
  forall a1 w1 a2 w2 d L c : num,
    get_mean_speed (Swimming a1 d w1 L c)
    = get_mean_speed (Swimming a2 d w2 L c).
Proof.
  intros a1 w1 a2 w2 d L c. reflexivity.
Qed.

(** C10. The distance of a [Swimming] record is the action count times
    1.38 over 1000 and does not depend on the pool; so the reported mean
    speed need not be the reported distance over the duration: for the
    package [("SWM", [720, 1, 80, 25, 40])] the first is 1.0 and the
    second 0.9936. *)
Theorem swimming_distance_and_speed_disagree :
  (forall a d w L c : num,
      get_distance (Swimming a d w L c) = spec_distance a 1.38)
  /\ (forall a d w L c L' c' : num,
        get_distance (Swimming a d w L c)
        = get_distance (Swimming a d w L' c'))
  /\ exists self : Training,
      read_package "SWM" [VInt 720; VInt 1; VInt 80; VInt 25; VInt 40]
      = Ok self
      /\ get_mean_speed self = Ok (VFloat 1)
      /\ get_distance self / duration_h self
         = Ok (VFloat 0.99359999999999993)
      /\ get_mean_speed self <> get_distance self / duration_h self.
Proof.
  split; [|split].
  - intros; reflexivity.
  - intros; reflexivity.
  - eexists. split; [vm_compute; reflexivity|].
    split; [vm_compute; reflexivity|].
    split; [vm_compute; reflexivity|].
    vm_compute. discriminate.
Qed.

End Claims.

(** ** The claims on concrete packages *)

Lemma running_calories_formula_witness :
  to_float 15000 = Ok 15000%float
  /\ to_float 1 = Ok 1%float
  /\ to_float 75 = Ok 75%float
  /\ (1 =? 0)%float = false
  /\ get_spent_calories product_pow (Running 15000 1 75)
     = Ok (VFloat ((18 * (15000 * 0.65 / 1000 / 1) - 20)
                   * 75 / 1000 * 1 * 60)%float).
Proof.
  do 4 (split; [vm_compute; reflexivity|]).
  apply (proj1 (proj2 (running_calories_formula product_pow)));
    vm_compute; reflexivity.
Defined.


Lemma swimming_mean_speed_formula_witness :
  to_float 1 = Ok 1%float
  /\ (1 =? 0)%float = false
  /\ get_mean_speed (Swimming 720 1 80 (VFloat 25) (VFloat 40))
     = Ok (VFloat (25 * 40 / 1000 / 1)%float).
Proof.
  do 2 (split; [vm_compute; reflexivity|]).
  apply (proj1 (proj2 (swimming_mean_speed_formula product_pow)));
    vm_compute; reflexivity.
Defined.

Lemma swimming_calories_formula_witness :
  get_mean_speed (Swimming 720 1 80 25 40) = Ok (VFloat 1)
  /\ to_float 80 = Ok 80%float
  /\ get_spent_calories product_pow (Swimming 720 1 80 25 40)
     = Ok (VFloat ((1 + 1.1) * 2 * 80)%float).
Proof.
  do 2 (split; [vm_compute; reflexivity|]).
  apply (proj1 (proj2 (swimming_calories_formula product_pow)));
    vm_compute; reflexivity.
Defined.

Lemma distance_formula_witness :
  to_float (action (Swimming 720 1 80 25 40)) = Ok 720%float
  /\ get_distance (Swimming 720 1 80 25 40)
     = Ok (VFloat (720 * 1.38 / 1000)%float).
Proof.
  split; [vm_compute; reflexivity|].
  apply (proj2 (proj2 (proj2 distance_formula))
           (Swimming 720 1 80 25 40)).
  vm_compute; reflexivity.
Defined.

Lemma read_package_dispatch_witness :
  "ABC" <> "RUN" /\ "ABC" <> "WLK" /\ "ABC" <> "SWM"
  /\ read_package "ABC" [] = Raise (ValueError unknown_workout).
Proof.
  do 3 (split; [discriminate|]).
  apply (proj1 read_package_dispatch); discriminate.
Defined.

Lemma get_message_template_witness :
  finite_num (duration running_info) = true
  /\ finite_num (distance running_info) = true
  /\ finite_num (speed running_info) = true
  /\ finite_num (calories running_info) = true
  /\ exists duration_s distance_s speed_s calories_s : string,
      get_message running_info
      = Ok (template "Running" duration_s distance_s speed_s calories_s)
      /\ format_3f (duration running_info) = Ok duration_s
      /\ format_3f (distance running_info) = Ok distance_s
      /\ format_3f (speed running_info) = Ok speed_s
      /\ format_3f (calories running_info) = Ok calories_s
      /\ is_fixed3 duration_s = true /\ is_fixed3 distance_s = true
      /\ is_fixed3 speed_s = true /\ is_fixed3 calories_s = true.
Proof.
  do 4 (split; [vm_compute; reflexivity|]).
  apply (get_message_template running_info); vm_compute; reflexivity.
Defined.

Lemma not_implemented_only_on_base_witness :
  read_package "WLK" [VInt 9000; VInt 1; VInt 75; VInt 180]
  = Ok (SportsWalking 9000 1 75 180)
  /\ get_spent_calories product_pow (SportsWalking 9000 1 75 180)
     <> Raise NotImplementedError
  /\ main product_pow (SportsWalking 9000 1 75 180)
     <> Raise NotImplementedError.
Proof.
  split; [reflexivity|].
  apply (proj2 (not_implemented_only_on_base product_pow)
           "WLK" [VInt 9000; VInt 1; VInt 75; VInt 180]).
  reflexivity.
Defined.

(** C7 as the specification words it fails twice over.  The line printed
    for [("RUN", [15000, 1, 75])] is not the English template but the
    program's own; and a field that is not finite has no decimals: a
    runner of 1e308 kg burns infinitely many calories, printed "inf". *)
Lemma get_message_differs_from_spec_template :
  summary_of product_pow "RUN" [VInt 15000; VInt 1; VInt 75]
  = Ok running_info
  /\ get_message running_info
     = Ok "Тип тренировки: Running; Длительность: 1.000 ч.; Дистанция: 9.750 км; Ср. скорость: 9.750 км/ч; Потрачено ккал: 699.750."
  /\ spec_format running_info
     = Ok "Workout type: Running; Duration: 1.000 h; Distance: 9.750 km; Mean speed: 9.750 km/h; Calories burned: 699.750."
  /\ get_message running_info <> spec_format running_info
  /\ summary_of product_pow "RUN" [VInt 15000; VInt 1; VFloat 1e308]
     ≫= get_message
     = Ok "Тип тренировки: Running; Длительность: 1.000 ч.; Дистанция: 9.750 км; Ср. скорость: 9.750 км/ч; Потрачено ккал: inf."
  /\ format_3f (VFloat infinity) = Ok "inf"
  /\ is_fixed3 "inf" = false.
Proof.
  do 3 (split; [vm_compute; reflexivity|]).
  split; [vm_compute; discriminate|].
  repeat split; vm_compute; reflexivity.
Qed.

(** * Further properties *)

(** ** The dispatcher and the loop *)


Lemma bind_Ok_inv {A B : Type} (r : result A) (k : A -> result B) (b : B) :
  r ≫= k = Ok b -> exists a, r = Ok a /\ k a = Ok b.
Proof. destruct r as [a|e]; [eauto|discriminate]. Qed.

Lemma bind_Raise {A B : Type} (r : result A) (k : A -> result B) (e : exn) :
  r = Raise e -> r ≫= k = Raise e.
Proof. intros ->. reflexivity. Qed.

Lemma arity_of_lookup (code : string) :
  match arity_of code with
  | None => detrmining_type_training !! code = None
  | Some n =>
      exists class, detrmining_type_training !! code = Some class
        /\ (forall data, length data <> n -> class data = Raise TypeError)
        /\ (forall data, length data = n ->
            exists self, class data = Ok self /\ is_variant self = true)
  end.
Proof.
  unfold arity_of.
  destruct (String.eqb_spec code "RUN") as [->|Hrun].
  { exists new_Running. split; [reflexivity|]. split; intros data Hlen;
      destruct data as [|? [|? [|? [|? ?]]]]; try discriminate Hlen;
      try reflexivity; try (contradiction Hlen; reflexivity).
    eexists; split; reflexivity. }
  destruct (String.eqb_spec code "WLK") as [->|Hwlk].
  { exists new_SportsWalking. split; [reflexivity|]. split; intros data Hlen;
      destruct data as [|? [|? [|? [|? [|? ?]]]]]; try discriminate Hlen;
      try reflexivity; try (contradiction Hlen; reflexivity).
    eexists; split; reflexivity. }
  destruct (String.eqb_spec code "SWM") as [->|Hswm].
  { exists new_Swimming. split; [reflexivity|]. split; intros data Hlen;
      destruct data as [|? [|? [|? [|? [|? [|? ?]]]]]]; try discriminate Hlen;
      try reflexivity; try (contradiction Hlen; reflexivity).
    eexists; split; reflexivity. }
  unfold detrmining_type_training.
  rewrite !lookup_insert_ne by congruence.
  apply lookup_singleton_ne. congruence.
Qed.

(** X1. What one turn of the loop can raise.  A code that is not in the
    dictionary raises the [ValueError], whatever the data; a known code
    with a data list of another length than its class takes raises
    [TypeError]; with the right length the line is printed or the failure
    is a [ZeroDivisionError] or an [OverflowError], nothing else. *)
Theorem package_line_errors libm (code : string) (data : list num) :
  match arity_of code with
  | None => package_line libm code data = Raise (ValueError unknown_workout)
  | Some n =>
      if (length data =? n)%nat
      then arithmetic (package_line libm code data) = true
      else package_line libm code data = Raise TypeError
  end.
Proof.
  pose proof (arity_of_lookup code) as H. unfold package_line, read_package.
  destruct (arity_of code) as [n|].
  - destruct H as (class & -> & Hbad & Hgood).
    destruct (Nat.eqb_spec (length data) n) as [Hlen|Hlen].
    + destruct (Hgood data Hlen) as (self & -> & Hv).
      apply arithmetic_main, Hv.
    + rewrite (Hbad data Hlen). reflexivity.
  - rewrite H. reflexivity.
Qed.

Lemma read_package_inv (code : string) (data : list num) (self : Training) :
  read_package code data = Ok self ->
  (code = "RUN" /\ exists a d w, data = [a; d; w] /\ self = Running a d w)
  \/ (code = "WLK"
      /\ exists a d w h, data = [a; d; w; h] /\ self = SportsWalking a d w h)
  \/ (code = "SWM"
      /\ exists a d w L c,
          data = [a; d; w; L; c] /\ self = Swimming a d w L c).
Proof.
  unfold read_package.
  destruct (detrmining_type_training !! code) as [class|] eqn:E; [|discriminate].
  apply lookup_class in E as [[-> ->]|[[-> ->]|[-> ->]]];
    destruct data as [|? [|? [|? [|? [|? [|? ?]]]]]]; simpl;
    try discriminate; intros [= <-]; eauto 10.
Qed.

(** X2. A record that [read_package] returns holds the numbers of the
    package unchanged and in order (action, duration and weight first),
    the length of the data is the arity of the code's class, and the
    record determines the package: no other code or data builds it. *)
Theorem read_package_keeps_data (code : string) (data : list num)
    (self : Training) :
  read_package code data = Ok self ->
  init_args self = data
  /\ action self = nth 0 data (VInt 0)
  /\ duration_h self = nth 1 data (VInt 0)
  /\ weight_kg self = nth 2 data (VInt 0)
  /\ arity_of code = Some (length data)
  /\ forall code' data',
      read_package code' data' = Ok self -> code' = code /\ data' = data.
Proof.
  intros H.
  apply read_package_inv in H
    as [(-> & a & d & w & -> & ->)
       |[(-> & a & d & w & h & -> & ->)
        |(-> & a & d & w & L & c & -> & ->)]];
    (do 5 (split; [reflexivity|]));
    intros code' data' H';
    apply read_package_inv in H'
      as [(-> & ? & ? & ? & -> & [=])
         |[(-> & ? & ? & ? & ? & -> & [=])
          |(-> & ? & ? & ? & ? & ? & -> & [=])]];
    subst; split; reflexivity.
Qed.

Lemma read_package_keeps_data_witness :
  read_package "WLK" [VInt 9000; VInt 1; VInt 75; VInt 180]
  = Ok (SportsWalking 9000 1 75 180)
  /\ init_args (SportsWalking 9000 1 75 180)
     = [VInt 9000; VInt 1; VInt 75; VInt 180]
  /\ duration_h (SportsWalking 9000 1 75 180) = VInt 1.
Proof.
  split; [reflexivity|].
  pose proof (read_package_keeps_data "WLK"
                [VInt 9000; VInt 1; VInt 75; VInt 180]
                (SportsWalking 9000 1 75 180) eq_refl) as (H1 & _ & H2 & _).
  split; [exact H1 | exact H2].
Defined.

Lemma truediv_Ok_float (x y v : num) :
  truediv x y = Ok v -> exists f : float, v = VFloat f.
Proof.
  unfold truediv. intros H.
  destruct x as [a|f], y as [b|g].
  - destruct (int_true_divide a b); [|discriminate].
    injection H as <-. eauto.
  - apply bind_Ok_inv in H as (fa & _ & H).
    apply bind_Ok_inv in H as (fb & _ & H).
    destruct (fb =? 0)%float; [discriminate|]. injection H as <-. eauto.
  - apply bind_Ok_inv in H as (fa & _ & H).
    apply bind_Ok_inv in H as (fb & _ & H).
    destruct (fb =? 0)%float; [discriminate|]. injection H as <-. eauto.
  - apply bind_Ok_inv in H as (fa & _ & H).
    apply bind_Ok_inv in H as (fb & _ & H).
    destruct (fb =? 0)%float; [discriminate|]. injection H as <-. eauto.
Qed.

Lemma binop_Ok_inv op (x y : result num) (v : num) :
  binop op x y = Ok v -> exists a b, x = Ok a /\ y = Ok b /\ op a b = Ok v.
Proof.
  unfold binop. intros H.
  apply bind_Ok_inv in H as (a & Ha & H).
  apply bind_Ok_inv in H as (b & Hb & H). eauto.
Qed.

Section Summaries.
Variable libm_pow : float -> float -> float * bool.
Local Open Scope py_scope.

(** Inversion of [show_training_info]. *)
Lemma show_training_info_inv (self : Training) (info : InfoMessage) :
  show_training_info libm_pow self = Ok info ->
  get_distance self = Ok (distance info)
  /\ get_mean_speed self = Ok (speed info)
  /\ get_spent_calories libm_pow self = Ok (calories info)
  /\ training_type info = type_name self
  /\ duration info = duration_h self.
Proof.
  unfold show_training_info. intros H.
  apply bind_Ok_inv in H as (dist & Hd & H).
  apply bind_Ok_inv in H as (sp & Hs & H).
  apply bind_Ok_inv in H as (cal & Hc & H).
  injection H as <-. simpl. auto.
Qed.

Lemma get_distance_Ok_float (self : Training) (v : num) :
  get_distance self = Ok v -> exists x : float, v = VFloat x.
Proof.
  unfold get_distance. intros H.
  apply binop_Ok_inv in H as (t & m & _ & _ & H).
  apply truediv_Ok_float in H. exact H.
Qed.

(** X3. In a summary that [show_training_info] returns for a record that
    is not a [Swimming] one, the type is the class name, the duration is
    the record's own, and the mean speed is the summary's distance
    divided by its duration, both doubles. *)
Theorem summary_speed_is_distance_over_duration
    (self : Training) (info : InfoMessage) :
  show_training_info libm_pow self = Ok info ->
  type_name self <> "Swimming" ->
  training_type info = type_name self
  /\ duration info = duration_h self
  /\ Py.truediv (distance info) (duration info) = Ok (speed info)
  /\ exists x v : float,
      distance info = VFloat x /\ speed info = VFloat v.
Proof.
  intros H Hs.
  apply show_training_info_inv in H as (Hd & Hv & _ & Hty & Hdur).
  assert (get_mean_speed self = Training_get_mean_speed self) as E
    by (destruct self; [reflexivity..|contradiction Hs; reflexivity]).
  rewrite E in Hv. unfold Training_get_mean_speed in Hv.
  rewrite Hd in Hv. rewrite Hdur.
  change (Py.truediv (distance info) (duration_h self) = Ok (speed info)) in Hv.
  do 3 (split; [assumption || reflexivity|]).
  destruct (get_distance_Ok_float _ _ Hd) as (x & Ex).
  destruct (truediv_Ok_float _ _ _ Hv) as (v & Ev). eauto.
Qed.
End Summaries.

Lemma summary_speed_is_distance_over_duration_witness :
  show_training_info product_pow (Running 15000 1 75) = Ok running_info
  /\ type_name (Running 15000 1 75) <> "Swimming"
  /\ Py.truediv (distance running_info) (duration running_info)
     = Ok (speed running_info).
Proof.
  split; [vm_compute; reflexivity|]. split; [discriminate|].
  apply (summary_speed_is_distance_over_duration product_pow
           (Running 15000 1 75) running_info);
    [vm_compute; reflexivity | discriminate].
Defined.

(** ** Division by a zero duration *)

Lemma truediv_zero (x y : num) :
  zero_num y = true ->
  (forall v, truediv x y <> Ok v)
  /\ (converts x = true -> truediv x y = Raise ZeroDivisionError).
Proof.
  intros Hz. unfold truediv, converts.
  destruct y as [b|g]; simpl in Hz.
  - apply Z.eqb_eq in Hz as ->.
    destruct x as [a|f].
    + split; [intros v H; discriminate H | reflexivity].
    + split; [intros v H; discriminate H | reflexivity].
  - destruct x as [a|f]; simpl.
    + destruct (float_of_int a) as [fa|e]; simpl; rewrite ?Hz;
        (split; [intros v H; discriminate H | (reflexivity || discriminate)]).
    + rewrite Hz. split; [intros v H; discriminate H | reflexivity].
Qed.

Section NoSummary.
Variable libm_pow : float -> float -> float * bool.
Local Open Scope py_scope.

Lemma get_mean_speed_zero_duration (self : Training) :
  zero_num (duration_h self) = true ->
  forall v, get_mean_speed self <> Ok v.
Proof.
  intros Hz v H.
  assert (exists x, Py.truediv x (duration_h self) = Ok v) as (x & Hx).
  { destruct self; unfold get_mean_speed, Training_get_mean_speed,
      Swimming_get_mean_speed in H;
      apply binop_Ok_inv in H as (x & y & _ & [= <-] & H); eauto. }
  apply (proj1 (truediv_zero x _ Hz) v Hx).
Qed.

(** X4. A record whose duration is zero (the int 0, or a double 0.0 or
    -0.0) never gives a summary or a printed line; when it is not a
    [Swimming] record and its action count converts to a double, what
    [get_mean_speed] and [main] raise is [ZeroDivisionError]. *)
Theorem zero_duration_gives_no_summary (self : Training) :
  zero_num (duration_h self) = true ->
  (forall info, show_training_info libm_pow self <> Ok info)
  /\ (forall line, main libm_pow self <> Ok line)
  /\ (type_name self <> "Swimming" -> converts (action self) = true ->
      get_mean_speed self = Raise ZeroDivisionError
      /\ main libm_pow self = Raise ZeroDivisionError).
Proof.
  intros Hz.
  assert (forall info, show_training_info libm_pow self <> Ok info) as Hno.
  { intros info H. apply show_training_info_inv in H as (_ & Hv & _).
    exact (get_mean_speed_zero_duration self Hz _ Hv). }
  split; [exact Hno|]. split.
  - intros line H. unfold main in H.
    apply bind_Ok_inv in H as (info & Hi & _). exact (Hno info Hi).
  - intros Hs Ha. unfold converts in Ha.
    destruct (to_float (action self)) as [fa|] eqn:Efa; [|discriminate].
    assert (get_mean_speed self = Raise ZeroDivisionError) as Hms.
    { assert (get_mean_speed self = Training_get_mean_speed self) as ->
        by (destruct self; [reflexivity..|contradiction Hs; reflexivity]).
      unfold Training_get_mean_speed, atom.
      rewrite (get_distance_value self fa 0.65 Efa)
        by (destruct self; [reflexivity..|contradiction Hs; reflexivity]).
      apply (proj2 (truediv_zero (VFloat _) _ Hz)). reflexivity. }
    split; [exact Hms|].
    unfold main, show_training_info.
    rewrite (get_distance_value self fa 0.65 Efa)
      by (destruct self; [reflexivity..|contradiction Hs; reflexivity]).
    rewrite Hms. reflexivity.
Qed.

(** X5. An object of the base class never gives a summary or a printed
    line; when its action count and duration convert to doubles and the
    duration is not zero, [main] raises [NotImplementedError]. *)
Theorem base_training_gives_no_summary (a d w : num) :
  (forall info, show_training_info libm_pow (BaseTraining a d w) <> Ok info)
  /\ (forall line, main libm_pow (BaseTraining a d w) <> Ok line)
  /\ (forall fa fd : float,
        to_float a = Ok fa -> to_float d = Ok fd ->
        (fd =? 0)%float = false ->
        main libm_pow (BaseTraining a d w) = Raise NotImplementedError).
Proof.
  assert (forall info,
             show_training_info libm_pow (BaseTraining a d w) <> Ok info) as Hno.
  { intros info H. apply show_training_info_inv in H as (_ & _ & H & _).
    discriminate H. }
  split; [exact Hno|]. split.
  - intros line H. unfold main in H.
    apply bind_Ok_inv in H as (info & Hi & _). exact (Hno info Hi).
  - intros fa fd Ha Hd Hnz. unfold main, show_training_info.
    rewrite (get_distance_value (BaseTraining a d w) fa 0.65 Ha) by reflexivity.
    rewrite (mean_speed_value (BaseTraining a d w) fa fd)
      by (assumption || discriminate).
    reflexivity.
Qed.
End NoSummary.

Lemma zero_duration_gives_no_summary_witness :
  zero_num (duration_h (Running 15000 (VFloat (-0)) 75)) = true
  /\ converts (action (Running 15000 (VFloat (-0)) 75)) = true
  /\ main product_pow (Running 15000 (VFloat (-0)) 75)
     = Raise ZeroDivisionError.
Proof.
  do 2 (split; [vm_compute; reflexivity|]).
  apply (zero_duration_gives_no_summary product_pow
           (Running 15000 (VFloat (-0)) 75));
    [vm_compute; reflexivity | discriminate | vm_compute; reflexivity].
Defined.

Lemma base_training_gives_no_summary_witness :
  to_float 15000 = Ok 15000%float
  /\ to_float 1 = Ok 1%float
  /\ (1 =? 0)%float = false
  /\ main product_pow (BaseTraining 15000 1 75) = Raise NotImplementedError.
Proof.
  do 3 (split; [vm_compute; reflexivity|]).
  apply (proj2 (proj2 (base_training_gives_no_summary product_pow 15000 1 75))
           15000%float 1%float);
    vm_compute; reflexivity.
Defined.

(** ** What [get_message] raises *)

Lemma format_3f_converts (x : num) :
  format_3f x = if converts x
                then Ok (format_float_3f
                           (match to_float x with Ok f => f | Raise _ => 0%float end))
                else Raise OverflowError.
Proof.
  unfold format_3f, converts. destruct x as [z|f]; simpl; [|reflexivity].
  unfold float_of_int.
  destruct (binary_normalize prec emax z 0 false); reflexivity.
Qed.

(** X6. [get_message] returns a line exactly when each of the four
    numeric fields converts to a double (a double field always does, an
    infinity or a NaN included); otherwise it raises [OverflowError], and
    it raises nothing else. *)
Theorem get_message_raises_only_overflow (info : InfoMessage) :
  if converts (duration info) && converts (distance info)
     && converts (speed info) && converts (calories info)
  then exists line, get_message info = Ok line
  else get_message info = Raise OverflowError.
Proof.
  unfold get_message. rewrite !format_3f_converts.
  destruct (converts (duration info)); [|reflexivity].
  destruct (converts (distance info)); [|reflexivity].
  destruct (converts (speed info)); [|reflexivity].
  destruct (converts (calories info)); [|reflexivity].
  simpl. eauto.
Qed.

(** ** The printed line in closed form *)

Lemma format_3f_value (x : num) (f : float) :
  to_float x = Ok f -> format_3f x = Ok (format_float_3f f).
Proof. unfold format_3f. intros ->. reflexivity. Qed.

Lemma get_message_value (ty : string) (d : num) (fd x v c : float) :
  to_float d = Ok fd ->
  get_message {| training_type := ty; duration := d; distance := VFloat x;
                 speed := VFloat v; calories := VFloat c |}
  = Ok (template ty (format_float_3f fd) (format_float_3f x)
          (format_float_3f v) (format_float_3f c)).
Proof.
  intros Hd. unfold get_message. simpl.
  rewrite (format_3f_value d fd Hd). reflexivity.
Qed.

Lemma float_pow_two_raises libm (x : float) (e : exn) :
  float_pow libm x 2 = Raise e -> e = OverflowError.
Proof.
  unfold float_pow.
  repeat match goal with
         | |- context [if ?b then _ else _] =>
             let E := fresh "E" in
             destruct b eqn:E; try (vm_compute in E; discriminate E)
         | |- context [let (_, _) := ?p in _] => destruct p
         end;
    intros [= <-] || discriminate; reflexivity.
Qed.

Section Lines.
Variable libm_pow : float -> float -> float * bool.
Local Open Scope py_scope.

(** X7. The line printed for a running package whose three numbers
    convert to doubles, with a duration that is not zero: the template
    filled with "Running", the duration, a * 0.65 / 1000, that over the
    duration, and the running formula on them, each under [.3f]. *)
Theorem running_line (a d w : num) (fa fd fw : float) :
  to_float a = Ok fa -> to_float d = Ok fd -> to_float w = Ok fw ->
  (fd =? 0)%float = false ->
  package_line libm_pow "RUN" [a; d; w]
  = Ok (template "Running"
          (format_float_3f fd)
          (format_float_3f (fa * 0.65 / 1000))
          (format_float_3f (fa * 0.65 / 1000 / fd))
          (format_float_3f ((18 * (fa * 0.65 / 1000 / fd) - 20)
                            * fw / 1000 * fd * 60)))%float.
Proof.
  intros Ha Hd Hw Hnz.
  change (package_line libm_pow "RUN" [a; d; w])
    with (main libm_pow (Running a d w)).
  unfold main, show_training_info.
  rewrite (get_distance_value (Running a d w) fa 0.65 Ha) by reflexivity.
  rewrite (mean_speed_value (Running a d w) fa fd)
    by (assumption || discriminate).
  rewrite (running_calories_value libm_pow a d w fa fd fw) by assumption.
  apply get_message_value, Hd.
Qed.

(** X8. The line printed for a walking package whose four numbers convert
    to doubles, with duration and height not zero: when the square of the
    mean speed is computed, the template filled with "SportsWalking", the
    duration, the distance, the mean speed and the walking formula with
    its floor division; when the square overflows, [OverflowError]. *)
Theorem walking_line (a d w h : num) (fa fd fw fh : float) :
  to_float a = Ok fa -> to_float d = Ok fd ->
  to_float w = Ok fw -> to_float h = Ok fh ->
  (fd =? 0)%float = false -> (fh =? 0)%float = false ->
  match float_pow libm_pow (fa * 0.65 / 1000 / fd) 2 with
  | Ok sq =>
      package_line libm_pow "WLK" [a; d; w; h]
      = Ok (template "SportsWalking"
              (format_float_3f fd)
              (format_float_3f (fa * 0.65 / 1000))
              (format_float_3f (fa * 0.65 / 1000 / fd))
              (format_float_3f ((0.035 * fw
                                 + float_floor_div sq fh * 0.029 * fw)
                                * fd * 60)))
  | Raise _ =>
      package_line libm_pow "WLK" [a; d; w; h] = Raise OverflowError
  end%float.
Proof.
  intros Ha Hd Hw Hh Hd0 Hh0.
  change (package_line libm_pow "WLK" [a; d; w; h])
    with (main libm_pow (SportsWalking a d w h)).
  unfold main, show_training_info.
  rewrite (get_distance_value (SportsWalking a d w h) fa 0.65 Ha)
    by reflexivity.
  rewrite (mean_speed_value (SportsWalking a d w h) fa fd)
    by (assumption || discriminate).
  destruct (float_pow libm_pow (fa * 0.65 / 1000 / fd) 2) as [sq|e] eqn:Hsq.
  - rewrite (walking_calories_value libm_pow a d w h fa fd fw fh sq)
      by assumption.
    apply get_message_value, Hd.
  - apply float_pow_two_raises in Hsq as He. subst e.
    assert (get_spent_calories libm_pow (SportsWalking a d w h)
            = Raise OverflowError) as ->; [|reflexivity].
    unfold get_spent_calories, SportsWalking_get_spent_calories, atom.
    rewrite (mean_speed_value (SportsWalking a d w h) fa fd)
      by (assumption || discriminate).
    change (Ok (VFloat ?ms) ≫= _) with (pow libm_pow (VFloat ms) EXPONENT).
    assert (pow libm_pow (VFloat (fa * 0.65 / 1000 / fd)) EXPONENT
            = Raise OverflowError) as ->.
    { unfold pow.
      change (float_of_int EXPONENT) with (Ok 2%float : result float).
      change (Ok 2%float ≫= ?k) with (k 2%float). cbv beta.
      rewrite Hsq. reflexivity. }
    unfold add, mul, LESS_IMPACT_WEIGHT_CALORIE.
    rewrite (binop_arith_l _ _ w _ fw) by exact Hw.
    reflexivity.
Qed.

(** X9. The line printed for a swimming package whose first three numbers
    convert to doubles and whose pool gives a mean speed: the template
    filled with "Swimming", the duration, the distance a * 1.38 / 1000
    (from the strokes), the mean speed (from the pool) and (mean speed +
    1.1) * 2 * weight. *)
Theorem swimming_line (a d w L c : num) (fa fd fw ms : float) :
  to_float a = Ok fa -> to_float d = Ok fd -> to_float w = Ok fw ->
  get_mean_speed (Swimming a d w L c) = Ok (VFloat ms) ->
  package_line libm_pow "SWM" [a; d; w; L; c]
  = Ok (template "Swimming"
          (format_float_3f fd)
          (format_float_3f (fa * 1.38 / 1000))
          (format_float_3f ms)
          (format_float_3f ((ms + 1.1) * 2 * fw)))%float.
Proof.
  intros Ha Hd Hw Hms.
  change (package_line libm_pow "SWM" [a; d; w; L; c])
    with (main libm_pow (Swimming a d w L c)).
  unfold main, show_training_info.
  rewrite (get_distance_value (Swimming a d w L c) fa 1.38 Ha) by reflexivity.
  rewrite Hms.
  change (get_spent_calories libm_pow (Swimming a d w L c))
    with (Swimming_get_spent_calories (Swimming a d w L c)).
  rewrite (swimming_calories_value (Swimming a d w L c) ms fw Hms Hw).
  apply get_message_value, Hd.
Qed.

End Lines.

Lemma running_line_witness :
  to_float 15000 = Ok 15000%float
  /\ to_float 1 = Ok 1%float
  /\ to_float 75 = Ok 75%float
  /\ (1 =? 0)%float = false
  /\ package_line product_pow "RUN" [VInt 15000; VInt 1; VInt 75]
     = Ok (template "Running" "1.000" "9.750" "9.750" "699.750").
Proof.
  do 4 (split; [vm_compute; reflexivity|]).
  etransitivity;
    [apply (running_line product_pow 15000 1 75
              15000%float 1%float 75%float);
     vm_compute; reflexivity|].
  vm_compute. reflexivity.
Defined.

Lemma walking_line_witness :
  to_float 9000 = Ok 9000%float
  /\ to_float 1 = Ok 1%float
  /\ to_float 75 = Ok 75%float
  /\ to_float 180 = Ok 180%float
  /\ (1 =? 0)%float = false
  /\ (180 =? 0)%float = false
  /\ package_line product_pow "WLK" [VInt 9000; VInt 1; VInt 75; VInt 180]
     = Ok (template "SportsWalking" "1.000" "5.850" "5.850" "157.500").
Proof.
  do 6 (split; [vm_compute; reflexivity|]).
  pose proof (walking_line product_pow 9000 1 75 180
                9000%float 1%float 75%float 180%float
                eq_refl eq_refl eq_refl eq_refl eq_refl eq_refl) as H.
  etransitivity; [exact H|]. vm_compute. reflexivity.
Defined.

Lemma swimming_line_witness :
  to_float 720 = Ok 720%float
  /\ to_float 1 = Ok 1%float
  /\ to_float 80 = Ok 80%float
  /\ get_mean_speed (Swimming 720 1 80 25 40) = Ok (VFloat 1)
  /\ package_line product_pow "SWM"
       [VInt 720; VInt 1; VInt 80; VInt 25; VInt 40]
     = Ok (template "Swimming" "1.000" "0.994" "1.000" "336.000").
Proof.
  do 4 (split; [vm_compute; reflexivity|]).
  etransitivity;
    [apply (swimming_line product_pow 720 1 80 25 40
              720%float 1%float 80%float 1%float);
     vm_compute; reflexivity|].
  vm_compute. reflexivity.
Defined.

(** ** Signs of products and quotients of doubles *)

Lemma leb_zero_l (x : float) : (0 <=? x)%float = sf_sign false (Prim2SF x).
Proof.
  rewrite FloatAxioms.leb_spec. change (Prim2SF 0) with (S754_zero false).
  destruct (Prim2SF x) as [s|s| |s m e]; try destruct s; reflexivity.
Qed.

Lemma leb_zero_r (x : float) : (x <=? 0)%float = sf_sign true (Prim2SF x).
Proof.
  rewrite FloatAxioms.leb_spec. change (Prim2SF 0) with (S754_zero false).
  destruct (Prim2SF x) as [s|s| |s m e]; try destruct s; reflexivity.
Qed.

Lemma posfin_spec (x : float) : positive_finite x = sf_posfin (Prim2SF x).
Proof.
  unfold positive_finite. rewrite !FloatAxioms.ltb_spec.
  change (Prim2SF 0) with (S754_zero false).
  change (Prim2SF infinity) with (S754_infinity false).
  destruct (Prim2SF x) as [s|s| |s m e]; try destruct s; reflexivity.
Qed.

Lemma posfin_finite (x : float) :
  positive_finite x = true ->
  exists m e, Prim2SF x = S754_finite false m e.
Proof.
  rewrite posfin_spec.
  destruct (Prim2SF x) as [s|s| |[] m e]; try discriminate; eauto.
Qed.

Lemma posfin_nonzero (x : float) :
  positive_finite x = true -> (x =? 0)%float = false.
Proof.
  intros (m & e & E)%posfin_finite.
  rewrite FloatAxioms.eqb_spec, E. reflexivity.
Qed.

(** Shifting right keeps a mantissa non-negative. *)
Lemma iter_pos_inv {A : Type} (P : A -> Prop) (f : A -> A) :
  (forall x, P x -> P (f x)) ->
  forall (p : positive) (x : A), P x -> P (SpecFloat.iter_pos f p x).
Proof.
  intros Hf. induction p as [p IH|p IH|]; intros x Hx; simpl; auto.
Qed.

Lemma shr_1_nonneg (mrs : shr_record) :
  0 <= shr_m mrs -> 0 <= shr_m (shr_1 mrs).
Proof.
  destruct mrs as [m r s]. simpl.
  destruct m as [|p|p]; [| |lia]; intros _.
  - simpl. lia.
  - destruct p; simpl; lia.
Qed.

Lemma shr_fexp_nonneg (m e : Z) (l : location) :
  0 <= m -> 0 <= shr_m (fst (shr_fexp prec emax m e l)).
Proof.
  intros Hm. unfold shr_fexp, shr.
  assert (0 <= shr_m (shr_record_of_loc m l)) as H0
    by (destruct l as [|[]]; exact Hm).
  destruct (fexp prec emax (Zdigits2 m + e) - e) as [|p|p]; simpl;
    try exact H0.
  apply (iter_pos_inv (fun mrs => 0 <= shr_m mrs) shr_1 shr_1_nonneg), H0.
Qed.

Lemma round_nearest_even_nonneg (m : Z) (l : location) :
  0 <= m -> 0 <= round_nearest_even m l.
Proof.
  intros Hm. destruct l as [|[]]; simpl; try lia.
  destruct (Z.even m); lia.
Qed.

(** Rounding a non-negative mantissa under the sign [s] gives a zero of
    that sign, or a finite or infinite double of that sign. *)
Lemma binary_round_aux_cases (s : bool) (m e : Z) (l : location) :
  0 <= m ->
  match binary_round_aux prec emax s m e l with
  | S754_nan => False
  | S754_zero s' | S754_infinity s' | S754_finite s' _ _ => s' = s
  end.
Proof.
  intros Hm. unfold binary_round_aux.
  pose proof (shr_fexp_nonneg m e l Hm) as H1.
  destruct (shr_fexp prec emax m e l) as [mrs' e']. simpl in H1.
  pose proof (shr_fexp_nonneg _ e' loc_Exact
                (round_nearest_even_nonneg _ (loc_of_shr_record mrs') H1))
    as H2.
  destruct (shr_fexp prec emax _ e' loc_Exact) as [mrs'' e'']. simpl in H2.
  destruct (shr_m mrs'') as [|p|p]; [reflexivity| |lia].
  destruct (e'' <=? emax - prec); reflexivity.
Qed.

Lemma binary_round_aux_sign (s : bool) (m e : Z) (l : location) :
  0 <= m -> sf_sign s (binary_round_aux prec emax s m e l) = true.
Proof.
  intros Hm. pose proof (binary_round_aux_cases s m e l Hm) as H.
  destruct (binary_round_aux prec emax s m e l); simpl;
    [reflexivity|subst; apply eqb_reflx|contradiction|subst; apply eqb_reflx].
Qed.

Lemma binary_round_aux_plus (m e : Z) (l : location) :
  0 <= m -> sf_plus (binary_round_aux prec emax false m e l) = true.
Proof.
  intros Hm. pose proof (binary_round_aux_cases false m e l Hm) as H.
  destruct (binary_round_aux prec emax false m e l); simpl;
    subst; reflexivity || contradiction.
Qed.

Lemma binary_round_sign (s : bool) (m : positive) (e : Z) :
  sf_sign s (binary_round prec emax s m e) = true.
Proof.
  unfold binary_round. destruct (shl_align _ _ _) as [mz ez].
  apply binary_round_aux_sign. lia.
Qed.

Lemma binary_normalize_nonneg (m e : Z) (s : bool) :
  0 <= m -> sf_sign false (binary_normalize prec emax m e s) = true.
Proof.
  intros Hm. destruct m as [|p|p]; [reflexivity| |lia].
  apply binary_round_sign.
Qed.

Lemma SFmul_sign (s : bool) (x y : spec_float) :
  sf_sign s x = true -> sf_posfin y = true ->
  sf_sign s (SFmul prec emax x y) = true.
Proof.
  destruct x as [sx|sx| |sx mx ex], y as [sy|sy| |[] my ey];
    try discriminate; simpl; intros Hx _;
    rewrite ?xorb_false_r; try exact Hx; try reflexivity.
  apply eqb_prop in Hx as ->. apply binary_round_aux_sign. lia.
Qed.

Lemma SFdiv_sign (s : bool) (x y : spec_float) :
  sf_sign s x = true -> sf_posfin y = true ->
  sf_sign s (SFdiv prec emax x y) = true.
Proof.
  destruct x as [sx|sx| |sx mx ex], y as [sy|sy| |[] my ey];
    try discriminate; simpl; intros Hx _;
    rewrite ?xorb_false_r; try exact Hx; try reflexivity.
  apply eqb_prop in Hx as ->.
  unfold SFdiv_core_binary.
  set (m' := match _ - _ - _ with Z0 => _ | Zpos _ => _ | Zneg _ => _ end).
  assert (0 <= m') as Hm'.
  { subst m'. destruct (_ - _ - _); try lia. apply Z.shiftl_nonneg. lia. }
  pose proof (Z_div_mod m' (Zpos my) eq_refl) as Hdm.
  destruct (Z.div_eucl m' (Z.pos my)) as [q r].
  apply binary_round_aux_sign. nia.
Qed.

Lemma SFadd_plus (x y : spec_float) :
  sf_sign false x = true -> sf_posfin y = true ->
  sf_plus (SFadd prec emax x y) = true.
Proof.
  destruct x as [sx|[]| |[] mx ex], y as [sy|sy| |[] my ey];
    try discriminate; simpl; intros _ _; try reflexivity.
  unfold binary_round. destruct (shl_align _ _ _) as [mz ez].
  apply binary_round_aux_plus. lia.
Qed.

Lemma sf_plus_sign (x : spec_float) :
  sf_plus x = true -> sf_sign false x = true.
Proof. destruct x as [[]|[]| |[] m e]; simpl; auto. Qed.

Lemma mul_nonneg (x y : float) :
  (0 <=? x)%float = true -> positive_finite y = true ->
  (0 <=? x * y)%float = true.
Proof.
  rewrite !leb_zero_l, posfin_spec, FloatAxioms.mul_spec. apply SFmul_sign.
Qed.

Lemma div_nonneg (x y : float) :
  (0 <=? x)%float = true -> positive_finite y = true ->
  (0 <=? x / y)%float = true.
Proof.
  rewrite !leb_zero_l, posfin_spec, FloatAxioms.div_spec. apply SFdiv_sign.
Qed.

Lemma mul_nonpos (x y : float) :
  (x <=? 0)%float = true -> positive_finite y = true ->
  (x * y <=? 0)%float = true.
Proof.
  rewrite !leb_zero_r, posfin_spec, FloatAxioms.mul_spec. apply SFmul_sign.
Qed.

Lemma div_nonpos (x y : float) :
  (x <=? 0)%float = true -> positive_finite y = true ->
  (x / y <=? 0)%float = true.
Proof.
  rewrite !leb_zero_r, posfin_spec, FloatAxioms.div_spec. apply SFdiv_sign.
Qed.

Lemma add_nonneg (x y : float) :
  (0 <=? x)%float = true -> positive_finite y = true ->
  (0 <=? x + y)%float = true.
Proof.
  rewrite !leb_zero_l, posfin_spec, FloatAxioms.add_spec.
  intros Hx Hy. apply sf_plus_sign, SFadd_plus; assumption.
Qed.

Lemma SFldexp_nonneg (x : spec_float) (e : Z) :
  sf_sign false x = true -> sf_sign false (SFldexp prec emax x e) = true.
Proof.
  destruct x as [s|s| |s m ex]; simpl; auto.
  intros ->%eqb_prop. apply binary_round_sign.
Qed.

Lemma SF2Prim_nonneg (x : spec_float) :
  sf_sign false x = true -> (0 <=? SF2Prim x)%float = true.
Proof.
  destruct x as [[]|[]| |s m e]; try discriminate; try reflexivity.
  simpl. intros ->%eqb_prop.
  rewrite leb_zero_l. unfold Z.ldexp. rewrite FloatAxioms.ldshiftexp_spec.
  apply SFldexp_nonneg. rewrite FloatAxioms.of_uint63_spec.
  apply binary_normalize_nonneg. apply Uint63.to_Z_bounded.
Qed.

Lemma float_of_int_nonneg (z : Z) (f : float) :
  0 <= z -> float_of_int z = Ok f -> (0 <=? f)%float = true.
Proof.
  intros Hz. unfold float_of_int.
  pose proof (binary_normalize_nonneg z 0 false Hz) as H.
  destruct (binary_normalize prec emax z 0 false) as [s|s| |s m e];
    try discriminate; intros [= <-].
  - exact (SF2Prim_nonneg (S754_zero s) H).
  - exact (SF2Prim_nonneg (S754_finite s m e) H).
Qed.

Lemma int_true_divide_nonneg (a b : Z) (q : float) :
  0 <= a -> 0 < b -> int_true_divide a b = Ok q -> (0 <=? q)%float = true.
Proof.
  intros Ha Hb. unfold int_true_divide.
  destruct (Z.eqb_spec b 0) as [->|_]; [lia|].
  replace (a <? 0) with false by (symmetry; apply Z.ltb_ge; lia).
  replace (b <? 0) with false by (symmetry; apply Z.ltb_ge; lia).
  simpl xorb. cbv iota.
  destruct (a =? 0); [intros [= <-]; reflexivity|].
  assert (sf_sign false (round_quotient false (Z.abs a) (Z.abs b)) = true)
    as H.
  { unfold round_quotient. apply binary_normalize_nonneg.
    assert (0 <= Z.shiftl (Z.abs a) (Z.max 0 (Z.log2 (Z.abs b)
                                              - Z.log2 (Z.abs a) + 56)))
      as Hs by (apply Z.shiftl_nonneg; lia).
    pose proof (Z.div_pos _ (Z.abs b) Hs ltac:(lia)) as Hq.
    destruct (_ mod _ =? 0); lia. }
  destruct (round_quotient false (Z.abs a) (Z.abs b)) as [s|s| |s m e];
    try discriminate; intros [= <-].
  - exact (SF2Prim_nonneg (S754_zero s) H).
  - exact (SF2Prim_nonneg (S754_finite s m e) H).
Qed.

Lemma to_float_nonneg (x : num) (f : float) :
  nonneg_num x = true -> to_float x = Ok f -> (0 <=? f)%float = true.
Proof.
  destruct x as [z|g]; simpl.
  - intros Hz%Z.leb_le. apply float_of_int_nonneg, Hz.
  - intros Hg [= <-]. exact Hg.
Qed.

(** ** Quantities that are never negative *)

Lemma get_distance_converts (self : Training) (v : num) :
  get_distance self = Ok v -> exists fa, to_float (action self) = Ok fa.
Proof.
  destruct (to_float (action self)) as [fa|e] eqn:E; [eauto|].
  intros H. exfalso. revert H. unfold get_distance, binop, atom, mul, arith.
  destruct self as [a d w|a d w|a d w h|a d w L c]; simpl in *;
    destruct a; simpl in *; rewrite ?E; discriminate.
Qed.

Lemma distance_value_nonneg (fa len : float) :
  (0 <=? fa)%float = true -> positive_finite len = true ->
  (0 <=? fa * len / 1000)%float = true.
Proof.
  intros Hfa Hlen.
  apply div_nonneg; [apply mul_nonneg; assumption | reflexivity].
Qed.

(** X10. The distance of a record whose action count is not negative (an
    int from 0 up, or a double from 0.0 up) is a double that is not
    negative, and not a NaN. *)
Theorem distance_not_negative (self : Training) (v : num) :
  nonneg_num (action self) = true ->
  get_distance self = Ok v ->
  exists x : float, v = VFloat x /\ (0 <=? x)%float = true.
Proof.
  intros Ha Hd.
  destruct (get_distance_converts self v Hd) as (fa & Efa).
  pose proof (to_float_nonneg _ _ Ha Efa) as Hfa.
  assert (exists len, LEN_STEP self = VFloat len
                      /\ positive_finite len = true) as (len & Elen & Hlen)
    by (destruct self; eexists; split; reflexivity).
  rewrite (get_distance_value self fa len Efa Elen) in Hd.
  injection Hd as <-. eexists. split; [reflexivity|].
  apply distance_value_nonneg; assumption.
Qed.

Lemma distance_not_negative_witness :
  nonneg_num (action (Swimming 720 1 80 25 40)) = true
  /\ get_distance (Swimming 720 1 80 25 40)
     = Ok (VFloat 0.99359999999999993)
  /\ exists x : float,
      VFloat 0.99359999999999993 = VFloat x /\ (0 <=? x)%float = true.
Proof.
  split; [reflexivity|]. split; [vm_compute; reflexivity|].
  apply (distance_not_negative (Swimming 720 1 80 25 40));
    vm_compute; reflexivity.
Defined.

(** X11. The mean speed of a record that is not a [Swimming] one, with an
    action count that is not negative and a duration that converts to a
    finite double above zero, is a double that is not negative. *)
Theorem mean_speed_not_negative (self : Training) (fd : float) (v : num) :
  type_name self <> "Swimming" ->
  nonneg_num (action self) = true ->
  to_float (duration_h self) = Ok fd -> positive_finite fd = true ->
  get_mean_speed self = Ok v ->
  exists x : float, v = VFloat x /\ (0 <=? x)%float = true.
Proof.
  intros Hs Ha Hd Hfd Hv.
  assert (exists fa, to_float (action self) = Ok fa) as (fa & Efa).
  { assert (get_mean_speed self = Training_get_mean_speed self) as E
      by (destruct self; [reflexivity..|contradiction Hs; reflexivity]).
    rewrite E in Hv. unfold Training_get_mean_speed in Hv.
    destruct (get_distance self) as [dist|e] eqn:Edist; [|discriminate Hv].
    exact (get_distance_converts self dist Edist). }
  rewrite (mean_speed_value self fa fd Hs Efa Hd (posfin_nonzero fd Hfd))
    in Hv.
  injection Hv as <-. eexists. split; [reflexivity|].
  apply div_nonneg; [|exact Hfd].
  apply distance_value_nonneg;
    [exact (to_float_nonneg _ _ Ha Efa) | reflexivity].
Qed.

Lemma mean_speed_not_negative_witness :
  type_name (SportsWalking 9000 1 75 180) <> "Swimming"
  /\ nonneg_num (action (SportsWalking 9000 1 75 180)) = true
  /\ to_float (duration_h (SportsWalking 9000 1 75 180)) = Ok 1%float
  /\ positive_finite 1 = true
  /\ get_mean_speed (SportsWalking 9000 1 75 180)
     = Ok (VFloat 5.8499999999999996)
  /\ exists x : float,
      VFloat 5.8499999999999996 = VFloat x /\ (0 <=? x)%float = true.
Proof.
  split; [discriminate|]. do 4 (split; [vm_compute; reflexivity|]).
  apply (mean_speed_not_negative (SportsWalking 9000 1 75 180) 1%float);
    [discriminate | vm_compute; reflexivity ..].
Defined.

Section Swimmer.

Variable libm_pow : float -> float -> float * bool.

(** X12. For a [Swimming] record with an int pool length and lap count
    that are not negative and a duration and a weight that convert to
    finite doubles above zero, neither the mean speed nor the calories are
    ever negative. *)
Theorem swimming_summary_not_negative
    (a d w : num) (L c : Z) (fd fw : float) :
  0 <= L -> 0 <= c ->
  to_float d = Ok fd -> positive_finite fd = true ->
  to_float w = Ok fw -> positive_finite fw = true ->
  (forall v, get_mean_speed (Swimming a d w (VInt L) (VInt c)) = Ok v ->
             exists x : float, v = VFloat x /\ (0 <=? x)%float = true)
  /\ (forall v,
        get_spent_calories libm_pow (Swimming a d w (VInt L) (VInt c)) = Ok v ->
        exists y : float, v = VFloat y /\ (0 <=? y)%float = true).
Proof.
  intros HL Hc Hd Hfd Hw Hfw.
  assert (forall v,
             get_mean_speed (Swimming a d w (VInt L) (VInt c)) = Ok v ->
             exists x : float, v = VFloat x /\ (0 <=? x)%float = true) as Hms.
  { intros v. unfold get_mean_speed, Swimming_get_mean_speed, atom.
    change (binop mul (Ok (VInt L)) (Ok (VInt c)))
      with (@Ok num (VInt (L * c))).
    change (binop truediv (Ok (VInt (L * c))) (Ok M_IN_KM))
      with (VFloat <$> int_true_divide (L * c) 1000).
    destruct (int_true_divide (L * c) 1000) as [q|e] eqn:Eq; [|discriminate].
    apply int_true_divide_nonneg in Eq; [|nia|lia].
    change (VFloat <$> Ok q) with (@Ok num (VFloat q)).
    change (duration_h (Swimming a d w L c)) with d.
    rewrite (binop_truediv_l _ q fd Hd (posfin_nonzero fd Hfd)).
    intros [= <-]. eexists. split; [reflexivity|].
    apply div_nonneg; assumption. }
  split; [exact Hms|].
  intros v Hv.
  change (get_spent_calories libm_pow (Swimming a d w (VInt L) (VInt c)))
    with (Swimming_get_spent_calories (Swimming a d w (VInt L) (VInt c))) in Hv.
  destruct (get_mean_speed (Swimming a d w (VInt L) (VInt c)))
    as [ms|e] eqn:Ems;
    [|unfold Swimming_get_spent_calories in Hv; rewrite Ems in Hv;
      discriminate Hv].
  destruct (Hms ms eq_refl) as (x & -> & Hx).
  rewrite (swimming_calories_value _ x fw Ems Hw) in Hv.
  injection Hv as <-. eexists. split; [reflexivity|].
  apply mul_nonneg; [|exact Hfw].
  apply mul_nonneg; [|reflexivity].
  apply add_nonneg; [exact Hx|reflexivity].
Qed.

End Swimmer.

Lemma swimming_summary_not_negative_witness :
  0 <= 25 /\ 0 <= 40
  /\ to_float 1 = Ok 1%float /\ positive_finite 1 = true
  /\ to_float 80 = Ok 80%float /\ positive_finite 80 = true
  /\ get_spent_calories product_pow (Swimming 720 1 80 25 40)
     = Ok (VFloat 336)
  /\ exists y : float, VFloat 336 = VFloat y /\ (0 <=? y)%float = true.
Proof.
  do 2 (split; [lia|]). do 5 (split; [vm_compute; reflexivity|]).
  apply (proj2 (swimming_summary_not_negative product_pow
                  720 1 80 25 40 1%float 80%float
                  ltac:(lia) ltac:(lia) eq_refl eq_refl eq_refl eq_refl)).
  vm_compute. reflexivity.
Defined.

(** ** Floor division of a small dividend *)

Lemma digits2_pos_bounds (m : positive) :
  2 ^ (Zpos (digits2_pos m) - 1) <= Zpos m < 2 ^ Zpos (digits2_pos m).
Proof.
  induction m as [m IH|m IH|]; simpl digits2_pos.
  - rewrite Pos2Z.inj_succ.
    replace (Z.succ (Zpos (digits2_pos m)) - 1) with (Zpos (digits2_pos m)) by lia.
    rewrite Z.pow_succ_r by lia.
    assert (2 ^ Zpos (digits2_pos m)
            = 2 * 2 ^ (Zpos (digits2_pos m) - 1)) as E.
    { rewrite <- Z.pow_succ_r by lia. f_equal. lia. }
    lia.
  - rewrite Pos2Z.inj_succ.
    replace (Z.succ (Zpos (digits2_pos m)) - 1) with (Zpos (digits2_pos m)) by lia.
    rewrite Z.pow_succ_r by lia.
    assert (2 ^ Zpos (digits2_pos m)
            = 2 * 2 ^ (Zpos (digits2_pos m) - 1)) as E.
    { rewrite <- Z.pow_succ_r by lia. f_equal. lia. }
    lia.
  - simpl. lia.
Qed.

(** Rounding a canonical mantissa at its own exponent changes nothing. *)
Lemma binary_round_canonical (m : positive) (e : Z) :
  bounded prec emax m e = true ->
  binary_round prec emax false m e = S754_finite false m e.
Proof.
  unfold bounded, canonical_mantissa. intros [Hc He]%andb_prop.
  apply Z.eqb_eq in Hc.
  unfold binary_round. rewrite Hc. unfold shl_align. rewrite Z.sub_diag.
  unfold binary_round_aux, shr_fexp. simpl Zdigits2. rewrite Hc, Z.sub_diag.
  simpl. rewrite Hc, Z.sub_diag. simpl. rewrite He. reflexivity.
Qed.

Lemma Prim2SF_finite_bounded (x : float) (s : bool) (m : positive) (e : Z) :
  Prim2SF x = S754_finite s m e -> bounded prec emax m e = true.
Proof.
  intros E. pose proof (Prim2SF_valid x) as H. rewrite E in H. exact H.
Qed.

(** Two positive doubles in order are in order as scaled integers. *)
Lemma finite_lt_scaled (mx my : positive) (ex ey : Z) :
  bounded prec emax mx ex = true -> bounded prec emax my ey = true ->
  SFltb (S754_finite false mx ex) (S754_finite false my ey) = true ->
  ex <= ey /\ Zpos mx < Zpos my * 2 ^ (ey - ex).
Proof.
  unfold bounded, canonical_mantissa, fexp, SFltb, SFcompare.
  intros [Hx _]%andb_prop [Hy _]%andb_prop. apply Z.eqb_eq in Hx, Hy.
  pose proof (digits2_pos_bounds mx) as Bx.
  pose proof (digits2_pos_bounds my) as By.
  destruct (Z.compare_spec ex ey) as [->|Hlt|Hgt]; [| |discriminate].
  - intros H. split; [lia|]. rewrite Z.sub_diag, Z.mul_1_r.
    destruct (Pos.compare_cont Eq mx my) eqn:C; try discriminate.
    change (Pos.compare mx my = Lt) in C. exact C.
  - intros _. split; [lia|].
    assert (Zpos (digits2_pos my) = prec) as Dy by (unfold prec in *; lia).
    assert (Zpos (digits2_pos mx) <= prec) as Dx by (unfold prec in *; lia).
    assert (Zpos mx < 2 ^ prec) as Ux.
    { eapply Z.lt_le_trans; [apply Bx|]. apply Z.pow_le_mono_r; lia. }
    rewrite Dy in By.
    assert (2 ^ 1 <= 2 ^ (ey - ex)) as Hp by (apply Z.pow_le_mono_r; lia).
    assert (2 ^ prec = 2 ^ (prec - 1) * 2 ^ 1) as E
      by (rewrite <- Z.pow_add_r by (unfold prec; lia); f_equal; lia).
    nia.
Qed.

Lemma fmod_small (x y : float) (mx my : positive) (ex ey : Z) :
  Prim2SF x = S754_finite false mx ex ->
  Prim2SF y = S754_finite false my ey ->
  (x <? y)%float = true ->
  fmod x y = x.
Proof.
  intros Ex Ey Hlt. rewrite FloatAxioms.ltb_spec, Ex, Ey in Hlt.
  pose proof (Prim2SF_finite_bounded x _ _ _ Ex) as Bx.
  pose proof (Prim2SF_finite_bounded y _ _ _ Ey) as By.
  destruct (finite_lt_scaled mx my ex ey Bx By Hlt) as [Hle Hm].
  unfold fmod. rewrite Ex, Ey.
  rewrite Z.min_l by exact Hle. rewrite Z.sub_diag, Z.mul_1_r.
  rewrite Z.mod_small by lia.
  change (binary_normalize prec emax (Zpos mx) ex false)
    with (binary_round prec emax false mx ex).
  rewrite (binary_round_canonical mx ex Bx), <- Ex.
  apply SF2Prim_Prim2SF.
Qed.

Lemma sub_diag_float (x : float) :
  (x <? infinity)%float = true -> (0 <=? x)%float = true ->
  (x - x)%float = 0%float.
Proof.
  rewrite FloatAxioms.ltb_spec, leb_zero_l. intros Hfin Hpos.
  apply Prim2SF_inj. rewrite FloatAxioms.sub_spec.
  change (Prim2SF infinity) with (S754_infinity false) in Hfin.
  change (Prim2SF 0) with (S754_zero false).
  destruct (Prim2SF x) as [[]|[]| |[] m e]; try discriminate; try reflexivity.
  unfold SF64sub, SFsub. rewrite Z.sub_diag. reflexivity.
Qed.

Lemma zero_div_float (y : float) (m : positive) (e : Z) :
  Prim2SF y = S754_finite false m e -> (0 / y)%float = 0%float.
Proof.
  intros Ey. apply Prim2SF_inj. rewrite FloatAxioms.div_spec, Ey. reflexivity.
Qed.

Lemma float_floor_div_small (x y : float) :
  (0 <=? x)%float = true -> (x <? y)%float = true ->
  (y <? infinity)%float = true ->
  exists s, Prim2SF (float_floor_div x y) = S754_zero s.
Proof.
  intros Hx Hxy Hy.
  assert ((x <? infinity)%float = true /\ (x <? 0)%float = false
          /\ (y <? 0)%float = false
          /\ (exists my ey, Prim2SF y = S754_finite false my ey)
          /\ fmod x y = x) as (Hxfin & Hxneg & Hyneg & (my & ey & Ey) & Hmod).
  { pose proof (fmod_small x y) as Hsmall.
    unfold fmod in *.
    rewrite !FloatAxioms.ltb_spec in *. rewrite leb_zero_l in Hx.
    change (Prim2SF infinity) with (S754_infinity false) in *.
    change (Prim2SF 0) with (S754_zero false) in *.
    destruct (Prim2SF x) as [sx|[]| |[] mx ex]; try discriminate;
      destruct (Prim2SF y) as [sy|[]| |[] my ey]; try discriminate;
      repeat split; eauto; destruct sx; reflexivity. }
  unfold float_floor_div. rewrite Hmod, Hxneg, Hyneg.
  rewrite (sub_diag_float x Hxfin Hx), (zero_div_float y my ey Ey).
  rewrite andb_false_r.
  change (truthy 0) with false. cbv iota.
  unfold copysign. destruct (get_sign (x / y)); eexists; reflexivity.
Qed.

Lemma mul_zero_posfin (x y : float) (s : bool) (m : positive) (e : Z) :
  Prim2SF x = S754_zero s -> Prim2SF y = S754_finite false m e ->
  Prim2SF (x * y)%float = S754_zero s.
Proof.
  intros Ex Ey. rewrite FloatAxioms.mul_spec, Ex, Ey. simpl.
  rewrite xorb_false_r. reflexivity.
Qed.

Lemma add_zero_r (x t : float) (s : bool) :
  sf_plus (Prim2SF x) = true -> Prim2SF t = S754_zero s ->
  (x + t)%float = x.
Proof.
  intros Hx Et. apply Prim2SF_inj. rewrite FloatAxioms.add_spec, Et.
  destruct (Prim2SF x) as [[]|[]| |[] m e]; try discriminate Hx;
    destruct s; reflexivity.
Qed.

Section SlowWalk.
Variable libm_pow : float -> float -> float * bool.

(** X13. While the squared mean speed of a walk is below the height, the
    floor division makes the height term vanish: the calories are 0.035 *
    weight * duration * 60, whatever the action count and the height
    (weight a finite double above zero, height finite). *)
Theorem walking_calories_below_height
    (a d w h : num) (fa fd fw fh sq : float) :
  to_float a = Ok fa -> to_float d = Ok fd ->
  to_float w = Ok fw -> to_float h = Ok fh ->
  (fd =? 0)%float = false ->
  positive_finite fw = true ->
  float_pow libm_pow (fa * 0.65 / 1000 / fd) 2 = Ok sq ->
  (0 <=? sq)%float = true -> (sq <? fh)%float = true ->
  (fh <? infinity)%float = true ->
  get_spent_calories libm_pow (SportsWalking a d w h)
  = Ok (VFloat (0.035 * fw * fd * 60)%float).
Proof.
  intros Ha Hd Hw Hh Hd0 Hfw Hsq Hpos Hlt Hfin.
  assert ((fh =? 0)%float = false) as Hh0.
  { rewrite FloatAxioms.eqb_spec. rewrite !FloatAxioms.ltb_spec in *.
    rewrite leb_zero_l in Hpos.
    change (Prim2SF 0) with (S754_zero false).
    destruct (Prim2SF sq) as [sx|[]| |[] mx ex]; try discriminate;
      destruct (Prim2SF fh) as [sy|[]| |[] my ey]; try discriminate;
      reflexivity. }
  rewrite (walking_calories_value libm_pow a d w h fa fd fw fh sq)
    by assumption.
  destruct (float_floor_div_small sq fh Hpos Hlt Hfin) as (s & EF).
  destruct (posfin_finite fw Hfw) as (mw & ew & Ew).
  assert (Prim2SF (float_floor_div sq fh * 0.029 * fw)%float = S754_zero s)
    as Et.
  { apply (mul_zero_posfin _ fw s mw ew); [|exact Ew].
    eapply mul_zero_posfin; [exact EF|reflexivity]. }
  rewrite (add_zero_r (0.035 * fw) _ s); [reflexivity| |exact Et].
  rewrite FloatAxioms.mul_spec, Ew.
  apply binary_round_aux_plus. lia.
Qed.
End SlowWalk.

Lemma walking_calories_below_height_witness :
  to_float 9000 = Ok 9000%float
  /\ to_float 1 = Ok 1%float
  /\ to_float 75 = Ok 75%float
  /\ to_float 180 = Ok 180%float
  /\ (1 =? 0)%float = false
  /\ positive_finite 75 = true
  /\ float_pow product_pow (9000 * 0.65 / 1000 / 1) 2
     = Ok 34.222499999999997%float
  /\ (0 <=? 34.222499999999997)%float = true
  /\ (34.222499999999997 <? 180)%float = true
  /\ (180 <? infinity)%float = true
  /\ get_spent_calories product_pow (SportsWalking 9000 1 75 180)
     = Ok (VFloat (0.035 * 75 * 1 * 60)%float).
Proof.
  do 10 (split; [vm_compute; reflexivity|]).
  apply (walking_calories_below_height product_pow
           9000 1 75 180 9000%float 1%float 75%float 180%float
           34.222499999999997%float);
    vm_compute; reflexivity.
Defined.

(** ** A run of no steps *)

Lemma eqb_zero_sf (x : float) :
  (x =? 0)%float = true -> exists s, Prim2SF x = S754_zero s.
Proof.
  rewrite FloatAxioms.eqb_spec. change (Prim2SF 0) with (S754_zero false).
  destruct (Prim2SF x) as [s|[]| |[] m e]; try discriminate; eauto.
Qed.

Lemma div_zero_posfin (x y : float) (s : bool) (m : positive) (e : Z) :
  Prim2SF x = S754_zero s -> Prim2SF y = S754_finite false m e ->
  Prim2SF (x / y)%float = S754_zero s.
Proof.
  intros Ex Ey. rewrite FloatAxioms.div_spec, Ex, Ey. simpl.
  rewrite xorb_false_r. reflexivity.
Qed.

Lemma mul_posfin_zero (x y : float) (s : bool) (m : positive) (e : Z) :
  Prim2SF x = S754_finite false m e -> Prim2SF y = S754_zero s ->
  Prim2SF (x * y)%float = S754_zero s.
Proof.
  intros Ex Ey. rewrite FloatAxioms.mul_spec, Ex, Ey. reflexivity.
Qed.

Lemma zero_num_to_float (x : num) :
  zero_num x = true ->
  exists f s, to_float x = Ok f /\ Prim2SF f = S754_zero s.
Proof.
  destruct x as [z|f]; simpl.
  - intros ->%Z.eqb_eq. exists 0%float, false. split; reflexivity.
  - intros (s & E)%eqb_zero_sf. eauto.
Qed.

Section NoSteps.

Variable libm_pow : float -> float -> float * bool.

(** X14. A run of no steps (action count 0, or 0.0) with a duration and a
    weight that convert to finite doubles above zero burns -20 * weight /
    1000 * duration * 60 calories, which is not above zero. *)
Theorem running_without_steps (a d w : num) (fd fw : float) :
  zero_num a = true ->
  to_float d = Ok fd -> positive_finite fd = true ->
  to_float w = Ok fw -> positive_finite fw = true ->
  get_spent_calories libm_pow (Running a d w)
  = Ok (VFloat (-20 * fw / 1000 * fd * 60)%float)
  /\ (-20 * fw / 1000 * fd * 60 <=? 0)%float = true.
Proof.
  intros Ha Hd Hfd Hw Hfw.
  destruct (zero_num_to_float a Ha) as (fa & s & Efa & Ez).
  destruct (posfin_finite fd Hfd) as (md & ed & Ed).
  split.
  - rewrite (running_calories_value libm_pow a d w fa fd fw Efa Hd Hw
               (posfin_nonzero fd Hfd)).
    assert ((18 * (fa * 0.65 / 1000 / fd) - 20)%float = (-20)%float) as ->;
      [|reflexivity].
    apply Prim2SF_inj. rewrite FloatAxioms.sub_spec.
    erewrite mul_posfin_zero; [reflexivity|reflexivity|].
    eapply div_zero_posfin; [|exact Ed].
    eapply div_zero_posfin; [|reflexivity].
    eapply mul_zero_posfin; [exact Ez|reflexivity].
  - apply mul_nonpos; [|reflexivity].
    apply mul_nonpos; [|exact Hfd].
    apply div_nonpos; [|reflexivity].
    apply mul_nonpos; [reflexivity|exact Hfw].
Qed.

End NoSteps.

Lemma running_without_steps_witness :
  zero_num 0 = true
  /\ to_float 1 = Ok 1%float /\ positive_finite 1 = true
  /\ to_float 75 = Ok 75%float /\ positive_finite 75 = true
  /\ get_spent_calories product_pow (Running 0 1 75) = Ok (VFloat (-90))
  /\ (-90 <=? 0)%float = true.
Proof.
  do 5 (split; [vm_compute; reflexivity|]).
  pose proof (running_without_steps product_pow 0 1 75 1%float 75%float
                eq_refl eq_refl eq_refl eq_refl eq_refl) as [H1 H2].
  split; [exact H1 | exact H2].
Defined.
